(** * create-strapi-app: the command-line front end

    A shallow embedding of [dist/create-strapi-app.js]: the option
    validation of [initProject], the prompts of [promptUser], the cloud
    provisioning of [handleCloudProject], the dispatch of [generateApp]
    and the colour markup of [parseToChalk].

    The program is a sequence of awaited calls to collaborators
    (@strapi/generate-new, @strapi/cloud-cli, inquirer, commander, the
    console and the process object).  A run is modelled in a small monad
    that threads an event log and the spinner flag, reads the answers of
    the collaborators from a [World], and ends by returning, by throwing
    or by [process.exit].

    Scope of the model.  A collaborator call may reject wherever the source
    catches the rejection, that is inside the two [try] blocks of
    [handleCloudProject].  Outside a [try] block the source has no handler
    and a rejection ends the process before anything stated here happens;
    such calls ([checkInstallPath], [checkRequirements], [generateNewApp],
    the first [cloudApiFactory], the prompts, the logger) are events that
    return. *)

From Stdlib Require Import ZArith Ascii String List Bool.
From stdpp Require Import base option list gmap strings pretty.

Set Warnings "-register-all".
Local Open Scope string_scope.
Local Open Scope Z_scope.

(** ** JavaScript values *)

(** The values that flow through the program: option values produced by
    commander (strings, booleans, [undefined]), JSON bodies sent by the
    cloud service.  Numbers are the integer-valued ones. *)
Inductive jsval : Type :=
  | JUndefined
  | JNull
  | JBool (b : bool)
  | JNumber (n : Z)
  | JString (s : string)
  | JObject (fields : gmap string jsval).

(** A plain JavaScript object used as a record of named values. *)
Abbreviation jsobject := (gmap string jsval).

#[global] Instance jsval_inhabited : Inhabited jsval := populate JUndefined.

(** [Boolean(v)], the test behind [if (v)], [!v], [a || b] and
    [filter(Boolean)]. *)
Definition truthy (v : jsval) : bool :=
  match v with
  | JUndefined | JNull => false
  | JBool b => b
  | JNumber n => negb (n =? 0)
  | JString s => negb (String.eqb s "")
  | JObject _ => true
  end.

(** [a || b] *)
Definition js_or (a b : jsval) : jsval := if truthy a then a else b.

(** [o[k]] and [o.k] on an object: [undefined] for a missing key. *)
Definition js_get (o : jsobject) (k : string) : jsval := default JUndefined (o !! k).

(** [o.k = v] *)
Definition js_set (o : jsobject) (k : string) (v : jsval) : jsobject := <[k := v]> o.

(** [{...a, ...b}]: the keys of [b] win. *)
Definition js_spread2 (a b : jsobject) : jsobject := b ∪ a.

(** [v.k] on an arbitrary value: [None] is the TypeError raised on
    [undefined] and [null]; a primitive has no such property. *)
Definition js_prop (v : jsval) (k : string) : option jsval :=
  match v with
  | JUndefined | JNull => None
  | JObject o => Some (js_get o k)
  | _ => Some JUndefined
  end.

(** [v?.k] *)
Definition js_prop_opt (v : jsval) (k : string) : jsval :=
  match js_prop v k with
  | Some x => x
  | None => JUndefined
  end.

(** The characters of a string as the own properties ["0"], ["1"], ... *)
Fixpoint string_entries (i : nat) (s : string) : list (string * jsval) :=
  match s with
  | EmptyString => []
  | String c rest => (pretty i, JString (String c EmptyString)) :: string_entries (S i) rest
  end.

(** The own enumerable properties copied by [{...v}]. *)
Definition js_own (v : jsval) : jsobject :=
  match v with
  | JObject o => o
  | JString s => list_to_map (string_entries 0 s)
  | _ => ∅
  end.

(** [typeof v === "string"] *)
Definition typeof_string (v : jsval) : bool :=
  match v with
  | JString _ => true
  | _ => false
  end.

(** [v === n] for a number literal [n] *)
Definition strict_eq_number (v : jsval) (n : Z) : bool :=
  match v with
  | JNumber m => m =? n
  | _ => false
  end.

(** [`${v}`] *)
Definition js_to_string (v : jsval) : string :=
  match v with
  | JUndefined => "undefined"
  | JNull => "null"
  | JBool true => "true"
  | JBool false => "false"
  | JNumber n => pretty n
  | JString s => s
  | JObject _ => "[object Object]"
  end.

(** [l.includes(v)] on an array of strings (SameValueZero: only a string
    can be found). *)
Definition includes (l : list string) (v : jsval) : bool :=
  match v with
  | JString s => existsb (String.eqb s) l
  | _ => false
  end.

(** [l.includes(s)] for a string [s] *)
Definition includes_string (l : list string) (s : string) : bool :=
  existsb (String.eqb s) l.

(** A directory name as a value: [undefined] when absent. *)
Definition of_name (projectName : option string) : jsval :=
  match projectName with
  | Some s => JString s
  | None => JUndefined
  end.

(** [!!projectName] for a name that is a string or [undefined]. *)
Definition has_name (projectName : option string) : bool := truthy (of_name projectName).

(** ** Errors and replies of the collaborators *)

(** [e.response] of an error thrown by the cloud client. *)
Record httpResponse := { status : jsval; data : jsval }.

(** A thrown value, reduced to what the handlers read: its [response]
    ([None]: the property is [undefined], as for a TypeError). *)
Record jsError := { message : string; response : option httpResponse }.

(** How an awaited promise settles. *)
Inductive reply (A : Type) : Type :=
  | Resolves (a : A)
  | Rejects (e : jsError).
Arguments Resolves {A} a.
Arguments Rejects {A} e.

(** ** The world a run happens in *)

Record World := {
  (** [process.argv] after the node binary and the script *)
  process_argv : list string;
  process_platform : string;
  (** [process.versions.node] *)
  process_versions_node : option string;
  (** [path.resolve] against the working directory *)
  path_resolve : string -> string;
  (** lines 49-56: the [{style}...{/style}] markup rendered through chalk;
      the result depends on the colour support of the terminal *)
  parseToChalk : string -> string;
  (** whether the spinner animates (ora on a terminal) *)
  spinner_enabled : bool;
  (** what the user types at the input question of that name *)
  typed : string -> string;
  (** the index of the choice the user selects at the list question of
      that name *)
  picked : string -> nat;
  (** [cloudApiService.config()], by the token of the service *)
  cloud_config : option string -> reply jsval;
  cloud_tokenServiceFactory : reply unit;
  cloud_login : reply jsval;
  cloud_retrieveToken : reply string;
  (** [cloudApiFactory(token)] *)
  cloud_apiFactory : string -> reply unit;
  (** [cloudApiService.createProject(payload)], the [data] of the answer *)
  cloud_createProject : jsobject -> reply jsval;
  (** [local.save({ project }, { directoryPath })] *)
  cloud_localSave : jsval -> string -> reply unit
}.

(** ** Events *)

(** An argument of [logger.debug]. *)
Inductive debugItem :=
  | DText (s : string)
  | DValue (v : jsval)
  | DError (e : jsError).

Inductive event :=
  | ConsoleError (msg : string)
  | CheckInstallPath (path : string)
  | CheckRequirements
  | GenerateNewApp (projectName : string) (options : jsobject)
  | Prompt (name : string) (msg : string)
  | CreateLogger (debug : bool)
  | CloudApiFactory (token : option string)
  | CloudConfig (token : option string)
  | TokenServiceFactory
  | LoginAction
  | RetrieveToken
  | CreateProject (payload : jsobject)
  | LocalSave (project : jsval) (directoryPath : string)
  | LoggerLog (s : string)
  | LoggerDebug (items : list debugItem)
  | LoggerWarn (s : string)
  | LoggerError (s : string)
  | SpinnerCreate (text : string)
  | SpinnerStart
  | SpinnerSucceed (text : string)
  | SpinnerFail (text : string).

(** ** The monad of a run *)

(** How a computation ends: it returns, it throws (a rejected promise in
    an [async] function) or the process exits. *)
Inductive Outcome (A : Type) : Type :=
  | Returned (a : A)
  | Thrown (e : jsError)
  | Exited (code : Z).
Arguments Returned {A} a.
Arguments Thrown {A} e.
Arguments Exited {A} code.

(** A computation reads the world and [projectCreationSpinner.isSpinning]
    and gives its outcome, the new value of the flag and the events it
    caused, in order. *)
Definition M (A : Type) : Type := World -> bool -> Outcome A * bool * list event.

Definition ret {A} (a : A) : M A := fun _ spinning => (Returned a, spinning, []).

Definition bind {A B} (m : M A) (k : A -> M B) : M B :=
  fun w spinning =>
    match m w spinning with
    | (Returned a, spinning', t) =>
        let '(o, spinning'', t') := k a w spinning' in (o, spinning'', (t ++ t')%list)
    | (Thrown e, spinning', t) => (Thrown e, spinning', t)
    | (Exited c, spinning', t) => (Exited c, spinning', t)
    end.

Declare Scope run_scope.
Delimit Scope run_scope with run.
Notation "x <- m ;; k" := (bind m (fun x => k))
  (at level 100, m at next level, right associativity) : run_scope.
Notation "m ;; k" := (bind m (fun _ => k))
  (at level 100, right associativity) : run_scope.
Local Open Scope run_scope.

(** [throw e] *)
Definition throw {A} (e : jsError) : M A := fun _ spinning => (Thrown e, spinning, []).

(** [process.exit(code)]: no handler runs after it. *)
Definition process_exit {A} (code : Z) : M A := fun _ spinning => (Exited code, spinning, []).

(** [try { body } catch (e) { handler e }] *)
Definition try_catch {A} (body : M A) (handler : jsError -> M A) : M A :=
  fun w spinning =>
    match body w spinning with
    | (Thrown e, spinning', t) =>
        let '(o, spinning'', t') := handler e w spinning' in (o, spinning'', (t ++ t')%list)
    | r => r
    end.

Definition asks {A} (f : World -> A) : M A := fun w spinning => (Returned (f w), spinning, []).

Definition emit (e : event) : M unit := fun _ spinning => (Returned tt, spinning, [e]).

Definition get_spinning : M bool := fun _ spinning => (Returned spinning, spinning, []).

Definition set_spinning (b : bool) : M unit := fun _ _ => (Returned tt, b, []).

(** [await call], the call recorded as [e]. *)
Definition await {A} (e : event) (r : World -> reply A) : M A :=
  emit e ;;
  x <- asks r ;;
  match x with
  | Resolves a => ret a
  | Rejects err => throw err
  end.

(** The outcome and the events of a whole run. *)
Definition outcome {A} (m : M A) (w : World) : Outcome A := fst (fst (m w false)).
Definition events {A} (m : M A) (w : World) : list event := snd (m w false).

(** ** The command declaration (lines 141-155) *)

(** An option as commander keeps it: [short] and [long] are the two flags
    read by [initProject]; the rest drives the parse. *)
Record CommanderOption := {
  short : option string;
  long : option string;
  required : bool;
  negate : bool;
  attributeName : string
}.

Definition flag (l : string) (key : string) : CommanderOption :=
  {| short := None; long := Some l; required := false; negate := false; attributeName := key |}.

Definition valued (l : string) (key : string) : CommanderOption :=
  {| short := None; long := Some l; required := true; negate := false; attributeName := key |}.

(** [.version(packageJson.version)] registers [-V, --version]. *)
Definition versionOption : CommanderOption :=
  {| short := Some "-V"; long := Some "--version"; required := false; negate := false;
     attributeName := "version" |}.

(** The implicit [-h, --help], listed by [visibleOptions] only. *)
Definition helpOption : CommanderOption :=
  {| short := Some "-h"; long := Some "--help"; required := false; negate := false;
     attributeName := "help" |}.

(** [command.options], in declaration order. *)
Definition commandOptions : list CommanderOption :=
  [ versionOption;
    {| short := None; long := Some "--no-run"; required := false; negate := true;
       attributeName := "run" |};
    flag "--use-npm" "useNpm";
    flag "--debug" "debug";
    flag "--quickstart" "quickstart";
    flag "--skip-cloud" "skipCloud";
    valued "--dbclient" "dbclient";
    valued "--dbhost" "dbhost";
    valued "--dbport" "dbport";
    valued "--dbname" "dbname";
    valued "--dbusername" "dbusername";
    valued "--dbpassword" "dbpassword";
    valued "--dbssl" "dbssl";
    valued "--dbfile" "dbfile";
    flag "--dbforce" "dbforce";
    valued "--template" "template";
    (* "--ts, --typescript": the first of two flags is stored as the short one *)
    {| short := Some "--ts"; long := Some "--typescript"; required := false; negate := false;
       attributeName := "typescript" |} ].

(** [command.createHelp().visibleOptions(command)] *)
Definition visibleOptions : list CommanderOption := commandOptions ++ [helpOption].

Definition databaseOptions : list string :=
  [ "dbclient"; "dbhost"; "dbport"; "dbname"; "dbusername"; "dbpassword"; "dbssl"; "dbfile" ].

(** [filter(Boolean)] on an array of strings and [undefined]s. *)
Definition filter_Boolean (l : list (option string)) : list string :=
  omap (fun x => if has_name x then x else None) l.

(** Line 175: [visibleOptions.reduce((acc, { short, long }) => [...acc, short, long], [])
    .filter(Boolean)] *)
Definition programFlags : list string :=
  filter_Boolean (fold_left (fun (acc : list (option string)) o => (acc ++ [short o; long o])%list)
       visibleOptions []).

(** ** The parse of the command line by commander

    A model of [command.parse(process.argv)] for this declaration: it
    either calls the action with the directory and the option values, or
    ends the process (version, help, a missing option argument, an unknown
    option). *)
Inductive Parsed :=
  | Action (directory : option string) (programArgs : jsobject)
  | CommanderExit (code : Z).

Definition is_flag (arg : string) (o : CommanderOption) : bool :=
  includes_string (filter_Boolean [short o; long o]) arg.

Definition findOption (arg : string) : option CommanderOption :=
  List.find (is_flag arg) commandOptions.

(** [arg.length > 1 && arg[0] === '-'] *)
Definition maybeOption (arg : string) : bool :=
  match arg with
  | String "-"%char (String _ _) => true
  | _ => false
  end.

(** [--name=value] split at the first [=] when [/^--[^=]+=/] matches. *)
Definition splitAssignment (arg : string) : option (string * string) :=
  if String.prefix "--" arg then
    match String.index 2 "=" arg with
    | Some i =>
        if (3 <=? i)%nat
        then Some (String.substring 0 i arg,
                   String.substring (S i) (String.length arg - S i) arg)
        else None
    | None => None
    end
  else None.

(** The first two characters of a cluster such as [-Vx]. *)
Definition clusterHead (arg : string) : option string :=
  match arg with
  | String "-"%char (String c (String _ _)) =>
      if Ascii.eqb c "-"%char then None else Some (String "-"%char (String c EmptyString))
  | _ => None
  end.

Record Parse := { operands : list string; unknown : list string; values : jsobject }.

(** The value an option stores when it is seen. *)
Definition storeOption (o : CommanderOption) (value : option string) (p : Parse) : Parse :=
  {| operands := operands p; unknown := unknown p;
     values := js_set (values p) (attributeName o)
                 (match value with
                  | Some v => JString v
                  | None => JBool (negb (negate o))
                  end) |}.

(** An argument that is not an option of this command goes to the
    operands until an unknown option has been seen. *)
Definition pushOther (arg : string) (p : Parse) : Parse :=
  if maybeOption arg || negb (Nat.eqb (List.length (unknown p)) 0)
  then {| operands := operands p; unknown := unknown p ++ [arg]; values := values p |}
  else {| operands := operands p ++ [arg]; unknown := unknown p; values := values p |}.

Definition isVersion (o : CommanderOption) : bool := String.eqb (attributeName o) "version".

Fixpoint parseOptions (args : list string) (p : Parse) : Parse + Z :=
  match args with
  | [] => inl p
  | arg :: rest =>
      if String.eqb arg "--" then
        inl (if Nat.eqb (List.length (unknown p)) 0
             then {| operands := operands p ++ rest; unknown := unknown p; values := values p |}
             else {| operands := operands p; unknown := unknown p ++ arg :: rest;
                     values := values p |})
      else
      match (if maybeOption arg then findOption arg else None) with
      | Some o =>
          if isVersion o then inr 0
          else if required o then
            match rest with
            | value :: rest' => parseOptions rest' (storeOption o (Some value) p)
            | [] => inr 1
            end
          else parseOptions rest (storeOption o None p)
      | None =>
          match (match clusterHead arg with Some h => findOption h | None => None end) with
          | Some _ =>
              (* [-V] is the only one-letter flag: the version is printed *)
              inr 0
          | None =>
              match (match splitAssignment arg with
                     | Some (name, value) =>
                         match findOption name with
                         | Some o => if required o then Some (o, value) else None
                         | None => None
                         end
                     | None => None
                     end) with
              | Some (o, value) => parseOptions rest (storeOption o (Some value) p)
              | None => parseOptions rest (pushOther arg p)
              end
          end
      end
  end.

(** [--no-run] presets [run] to [true]. *)
Definition defaultValues : jsobject := {[ "run" := JBool true ]}.

Definition parse (argv : list string) : Parsed :=
  match parseOptions argv {| operands := []; unknown := []; values := defaultValues |} with
  | inr code => CommanderExit code
  | inl p =>
      if includes_string (unknown p) "--help" || includes_string (unknown p) "-h"
      then CommanderExit 0
      else if negb (Nat.eqb (List.length (unknown p)) 0) then CommanderExit 1
      else Action (head (operands p)) (values p)
  end.

(** ** inquirer *)

(** A question of type ["input"]: an empty line gives the default. *)
Definition ask_input (name msg dflt : string) : M string :=
  emit (Prompt name msg) ;;
  text <- asks (fun w => typed w name) ;;
  ret (if String.eqb text "" then dflt else text).

(** A question of type ["list"]: the user selects one of the choices. *)
Definition ask_list {A} (name msg : string) (first : A) (others : list A) : M A :=
  emit (Prompt name msg) ;;
  i <- asks (fun w => picked w name) ;;
  ret (nth i (first :: others) first).

(** [when]: a question whose condition is false is skipped and leaves no
    key in the answers. *)
Definition when_asked {A} (when : bool) (question : M A) : M (option A) :=
  if when then (a <- question ;; ret (Some a)) else ret None.

(** The answers of [promptUser]: a key is absent when its question was
    skipped. *)
Record Answers := { directory : option string; quick : option bool }.

(** [prompt.quick] as a value *)
Definition of_quick (q : option bool) : jsval :=
  match q with
  | Some b => JBool b
  | None => JUndefined
  end.

(** [a || b] on names *)
Definition name_or (a b : option string) : option string := if has_name a then a else b.

(** Lines 13-39. *)
Definition promptUser (projectName : option string) (program : jsobject)
    (hasDatabaseOptions : bool) : M Answers :=
  directory <- when_asked (negb (has_name projectName))
                 (ask_input "directory" "What would you like to name your project?"
                    "my-strapi-project") ;;
  quick <- when_asked (negb (truthy (js_get program "quickstart")) && negb hasDatabaseOptions)
             (ask_list "quick" "Choose your installation type" true [false]) ;;
  ret {| directory := directory; quick := quick |}.

(** ** The cloud provisioner (lines 57-140) *)

Definition TypeError : jsError := {| message := "TypeError"; response := None |}.

(** Lines 57-61. *)
Definition assertCloudError (e : jsError) : M unit :=
  match response e with
  | None => throw {| message := "Expected CloudError"; response := None |}
  | Some _ => ret tt
  end.

Definition defaultErrorMessage : string :=
  "An error occurred while trying to interact with Strapi Cloud. Use strapi deploy command once the project is generated.".

Definition forbiddenFallback : string :=
  "We are sorry, but we are not able to create a Strapi Cloud project for you at the moment.".

(** [logger.spinner(text)] and the methods of the spinner. *)
Definition spinner_create (text : string) : M unit := emit (SpinnerCreate text) ;; set_spinning false.
Definition spinner_start : M unit := emit SpinnerStart ;; on <- asks spinner_enabled ;; set_spinning on.
Definition spinner_succeed (text : string) : M unit := emit (SpinnerSucceed text) ;; set_spinning false.
Definition spinner_fail (text : string) : M unit := emit (SpinnerFail text) ;; set_spinning false.

(** [v] when reading a property did not raise. *)
Definition or_TypeError {A} (v : option A) : M A :=
  match v with
  | Some a => ret a
  | None => throw TypeError
  end.

(** Line 108: [process.versions?.node?.slice(1, 3) || "20"] *)
Definition nodeVersion (w : World) : string :=
  match process_versions_node w with
  | Some v => let s := String.substring 1 2 v in if String.eqb s "" then "20" else s
  | None => "20"
  end.

(** Lines 107-113: the argument of [createProject]. *)
Definition projectPayload (w : World) (defaultProjectValues : jsval) (projectName : string) : jsobject :=
  js_set
    (js_spread2
       {[ "nodeVersion" := JString (nodeVersion w); "region" := JString "NYC";
          "plan" := JString "trial" ]}
       (js_own defaultProjectValues))
    "name" (JString projectName).

(** Lines 70-77: [true] when the introduction was shown, [false] when the
    handler returned from the function. *)
Definition fetchIntro : M bool :=
  try_catch
    (config <- await (CloudConfig None) (fun w => cloud_config w None) ;;
     projectCreation <- or_TypeError (js_prop config "projectCreation") ;;
     introText <- or_TypeError (js_prop projectCreation "introText") ;;
     match introText with
     | JString template =>
         text <- asks (fun w => parseToChalk w template) ;;
         emit (LoggerLog text) ;;
         ret true
     | _ => throw TypeError
     end)
    (fun e =>
       emit (LoggerDebug [DError e]) ;;
       emit (LoggerError defaultErrorMessage) ;;
       ret false).

(** Lines 93-117, the body of the second [try]. *)
Definition createCloudProject (projectName : string) : M unit :=
  await TokenServiceFactory cloud_tokenServiceFactory ;;
  loginSuccess <- await LoginAction cloud_login ;;
  if negb (truthy loginSuccess) then ret tt
  else
    emit (LoggerDebug [DText "Retrieving token"]) ;;
    token <- await RetrieveToken cloud_retrieveToken ;;
    await (CloudApiFactory (Some token)) (fun w => cloud_apiFactory w token) ;;
    emit (LoggerDebug [DText "Retrieving config"]) ;;
    config <- await (CloudConfig (Some token)) (fun w => cloud_config w (Some token)) ;;
    emit (LoggerDebug [DText "config"; DValue config]) ;;
    projectCreation <- or_TypeError (js_prop config "projectCreation") ;;
    let defaultProjectValues := js_or (js_prop_opt projectCreation "defaults") (JObject ∅) in
    emit (LoggerDebug [DText "default project values"; DValue defaultProjectValues]) ;;
    spinner_start ;;
    payload <- asks (fun w => projectPayload w defaultProjectValues projectName) ;;
    project <- await (CreateProject payload) (fun w => cloud_createProject w payload) ;;
    spinner_succeed "Project created on Strapi Cloud" ;;
    projectPath <- asks (fun w => path_resolve w projectName) ;;
    emit (LoggerDebug [DValue project; DText projectPath]) ;;
    await (LocalSave project projectPath) (fun w => cloud_localSave w project projectPath).

(** Lines 124-128 and 133-137: the message goes to the spinner while it
    spins and to the logger otherwise. *)
Definition failOr (text : string) (otherwise : string -> event) : M unit :=
  spinning <- get_spinning ;;
  if spinning then spinner_fail text else emit (otherwise text).

(** Line 123: the message of a 403 answer. *)
Definition forbiddenMessage (r : httpResponse) : string :=
  if typeof_string (data r) then js_to_string (data r) else forbiddenFallback.

(** Lines 118-138, the handler of the second [try]. *)
Definition cloudFailure (e : jsError) : M unit :=
  emit (LoggerDebug [DError e]) ;;
  returned <- try_catch
    (assertCloudError e ;;
     r <- or_TypeError (response e) ;;
     if strict_eq_number (status r) 403
     then failOr (forbiddenMessage r) LoggerWarn ;; ret true
     else ret false)
    (fun _ => ret false) ;;
  if returned then ret tt else failOr defaultErrorMessage LoggerError.

(** Lines 62-140. *)
Definition handleCloudProject (projectName : string) : M unit :=
  argv <- asks process_argv ;;
  emit (CreateLogger (includes_string argv "--debug")) ;;
  emit (CloudApiFactory None) ;;
  shown <- fetchIntro ;;
  if negb shown then ret tt
  else
    userChoice <- ask_list "userChoice" "Please log in or sign up." "Login/Sign up" ["Skip"] ;;
    if negb (String.eqb userChoice "Skip")
    then
      spinner_create "Creating project on Strapi Cloud" ;;
      try_catch (createCloudProject projectName) cloudFailure
    else ret tt.

(** ** The dispatcher (lines 156-207) *)

Definition missingDirectoryMessage : string :=
  "Please specify the <directory> of your project when using --quickstart".

Definition incompatibleMessage : string :=
  "The quickstart option is incompatible with the following options: "
  +:+ String.concat ", " databaseOptions.

(** [console.error(msg); process.exit(1)] *)
Definition fatal {A} (msg : string) : M A := emit (ConsoleError msg) ;; process_exit 1.

(** [if (c) { body }] *)
Definition when_ (c : bool) (body : M unit) : M unit := if c then body else ret tt.

(** [await generateNew.checkInstallPath(path.resolve(name))] *)
Definition checkInstallPath (name : option string) : M unit :=
  name <- or_TypeError name ;;
  path <- asks (fun w => path_resolve w name) ;;
  emit (CheckInstallPath path).

(** Lines 156-170. *)
Definition generateApp (projectName : option string) (options : jsobject) : M unit :=
  when_ (negb (has_name projectName)) (fatal missingDirectoryMessage) ;;
  name <- or_TypeError projectName ;;
  when_ (negb (truthy (js_get options "skipCloud")))
    (emit CheckRequirements ;; handleCloudProject name) ;;
  emit (GenerateNewApp name options) ;;
  platform <- asks process_platform ;;
  when_ (String.eqb platform "win32") (process_exit 0).

(** Line 180: [databaseOptions.some((opt) => programArgs[opt])] *)
Definition hasDatabaseOptions (programArgs : jsobject) : bool :=
  existsb (fun opt => truthy (js_get programArgs opt)) databaseOptions.

(** Line 176: [programArgs.template && programFlags.includes(programArgs.template)] *)
Definition templateCollides (programArgs : jsobject) : bool :=
  truthy (js_get programArgs "template")
  && includes programFlags (js_get programArgs "template").

(** Lines 176-179. *)
Definition templateCheck (programArgs : jsobject) : M unit :=
  when_ (templateCollides programArgs)
    (fatal (js_to_string (js_get programArgs "template") +:+ " is not a valid template")).

(** Lines 181-188. *)
Definition quickstartCheck (programArgs : jsobject) : M unit :=
  when_ (truthy (js_get programArgs "quickstart") && hasDatabaseOptions programArgs)
    (fatal incompatibleMessage).

(** Lines 189-191: the option values after [programArgs.quickstart = false]. *)
Definition forceQuickstart (programArgs : jsobject) : jsobject :=
  if hasDatabaseOptions programArgs then js_set programArgs "quickstart" (JBool false)
  else programArgs.

(** Lines 198-205. *)
Definition generateStrapiAppOptions (programArgs : jsobject) (prompt : Answers) : jsobject :=
  let options : jsobject :=
    {[ "template" := js_get programArgs "template";
       "quickstart" := js_or (of_quick (quick prompt)) (js_get programArgs "quickstart") ]} in
  js_spread2 programArgs options.

(** Lines 171-207. *)
Definition initProject (projectName : option string) (programArgs : jsobject) : M unit :=
  when_ (has_name projectName) (checkInstallPath projectName) ;;
  templateCheck programArgs ;;
  let hasDb := hasDatabaseOptions programArgs in
  quickstartCheck programArgs ;;
  let programArgs := forceQuickstart programArgs in
  if truthy (js_get programArgs "quickstart")
  then generateApp projectName programArgs
  else
    prompt <- promptUser projectName programArgs hasDb ;;
    let directory := name_or (directory prompt) projectName in
    checkInstallPath directory ;;
    generateApp directory (generateStrapiAppOptions programArgs prompt).

(** Lines 153-155: the action of the command on the parsed command line. *)
Definition main : M unit :=
  argv <- asks process_argv ;;
  match parse argv with
  | Action directory programArgs => initProject directory programArgs
  | CommanderExit code => process_exit code
  end.

(** ** Vocabulary of the statements *)

(** [sub] occurs in [s]. *)
Definition mentions (s sub : string) : bool :=
  match String.index 0 sub s with
  | Some _ => true
  | None => false
  end.

(** The events that only [handleCloudProject] causes. *)
Definition cloudEvent (e : event) : bool :=
  match e with
  | Prompt name _ => String.eqb name "userChoice"
  | CreateLogger _ | CloudApiFactory _ | CloudConfig _ | TokenServiceFactory | LoginAction
  | RetrieveToken | CreateProject _ | LocalSave _ _ | LoggerLog _ | LoggerDebug _
  | LoggerWarn _ | LoggerError _ | SpinnerCreate _ | SpinnerStart | SpinnerSucceed _
  | SpinnerFail _ => true
  | ConsoleError _ | CheckInstallPath _ | CheckRequirements | GenerateNewApp _ _ => false
  end.

(** The events of the first install-path check (lines 172-174). *)
Definition firstInstallCheck (projectName : option string) (w : World) : list event :=
  events (when_ (has_name projectName) (checkInstallPath projectName)) w.

(** The answers the prompter gives in a world. *)
Definition answersOf (w : World) (projectName : option string) (programArgs : jsobject) : Answers :=
  {| directory :=
       if has_name projectName then None
       else Some (if String.eqb (typed w "directory") "" then "my-strapi-project"
                  else typed w "directory");
     quick :=
       if negb (truthy (js_get (forceQuickstart programArgs) "quickstart"))
          && negb (hasDatabaseOptions programArgs)
       then Some (nth (picked w "quick") [true; false] true)
       else None |}.

(** The question of that name was put to the user. *)
Definition asked (name : string) (t : list event) : Prop :=
  exists msg, In (Prompt name msg) t.

(** [local.save] was called. *)
Definition isLocalSave (e : event) : bool :=
  match e with
  | LocalSave _ _ => true
  | _ => false
  end.

(** What the process ends with once the generator has resolved (lines
    165-169). *)
Definition afterGeneration (w : World) : Outcome unit :=
  if String.eqb (process_platform w) "win32" then Exited 0 else Returned tt.

(** The same world with another selection at one list question. *)
Definition choosing (name : string) (i : nat) (w : World) : World :=
  {| process_argv := process_argv w;
     process_platform := process_platform w;
     process_versions_node := process_versions_node w;
     path_resolve := path_resolve w;
     parseToChalk := parseToChalk w;
     spinner_enabled := spinner_enabled w;
     typed := typed w;
     picked := fun q => if String.eqb q name then i else picked w q;
     cloud_config := cloud_config w;
     cloud_tokenServiceFactory := cloud_tokenServiceFactory w;
     cloud_login := cloud_login w;
     cloud_retrieveToken := cloud_retrieveToken w;
     cloud_apiFactory := cloud_apiFactory w;
     cloud_createProject := cloud_createProject w;
     cloud_localSave := cloud_localSave w |}.

(** The cloud part of [generateApp] (lines 161-164). *)
Definition cloudPart (name : string) (options : jsobject) : M unit :=
  when_ (negb (truthy (js_get options "skipCloud")))
    (emit CheckRequirements ;; handleCloudProject name).

(** Every event of [m] satisfies [P], whatever the world and the flag. *)
Definition contained {A} (P : event -> Prop) (m : M A) : Prop :=
  forall w spinning, Forall P (snd (m w spinning)).

(** The path condition of the prompter: the checks of lines 176 and 181
    pass and line 192 does not dispatch. *)
Definition interactive (programArgs : jsobject) : Prop :=
  templateCollides programArgs = false
  /\ truthy (js_get programArgs "quickstart") && hasDatabaseOptions programArgs = false
  /\ truthy (js_get (forceQuickstart programArgs) "quickstart") = false.

(** A world for the examples: a Linux terminal, a user who accepts every
    default, a cloud service that answers. *)
Definition sampleWorld : World :=
  {| process_argv := [];
     process_platform := "linux";
     process_versions_node := Some "18.20.4";
     path_resolve := fun name => "/home/dev/" +:+ name;
     parseToChalk := fun template => template;
     spinner_enabled := true;
     typed := fun _ => "";
     picked := fun _ => 0%nat;
     cloud_config := fun _ =>
       Resolves (JObject {[ "projectCreation" :=
                              JObject {[ "introText" := JString "Welcome" ]} ]});
     cloud_tokenServiceFactory := Resolves tt;
     cloud_login := Resolves (JBool true);
     cloud_retrieveToken := Resolves "token";
     cloud_apiFactory := fun _ => Resolves tt;
     cloud_createProject := fun _ => Resolves (JObject {[ "name" := JString "remote" ]});
     cloud_localSave := fun _ _ => Resolves tt |}.

(** The same world with another command line. *)
Definition with_argv (argv : list string) (w : World) : World :=
  {| process_argv := argv;
     process_platform := process_platform w;
     process_versions_node := process_versions_node w;
     path_resolve := path_resolve w;
     parseToChalk := parseToChalk w;
     spinner_enabled := spinner_enabled w;
     typed := typed w;
     picked := picked w;
     cloud_config := cloud_config w;
     cloud_tokenServiceFactory := cloud_tokenServiceFactory w;
     cloud_login := cloud_login w;
     cloud_retrieveToken := cloud_retrieveToken w;
     cloud_apiFactory := cloud_apiFactory w;
     cloud_createProject := cloud_createProject w;
     cloud_localSave := cloud_localSave w |}.

(** The same world with a cloud service whose [config()] rejects. *)
Definition failingConfig (e : jsError) (w : World) : World :=
  {| process_argv := process_argv w;
     process_platform := process_platform w;
     process_versions_node := process_versions_node w;
     path_resolve := path_resolve w;
     parseToChalk := parseToChalk w;
     spinner_enabled := spinner_enabled w;
     typed := typed w;
     picked := picked w;
     cloud_config := fun _ => Rejects e;
     cloud_tokenServiceFactory := cloud_tokenServiceFactory w;
     cloud_login := cloud_login w;
     cloud_retrieveToken := cloud_retrieveToken w;
     cloud_apiFactory := cloud_apiFactory w;
     cloud_createProject := cloud_createProject w;
     cloud_localSave := cloud_localSave w |}.

(** The same world with a cloud service whose [createProject] rejects. *)
Definition refusingProjects (e : jsError) (w : World) : World :=
  {| process_argv := process_argv w;
     process_platform := process_platform w;
     process_versions_node := process_versions_node w;
     path_resolve := path_resolve w;
     parseToChalk := parseToChalk w;
     spinner_enabled := spinner_enabled w;
     typed := typed w;
     picked := picked w;
     cloud_config := cloud_config w;
     cloud_tokenServiceFactory := cloud_tokenServiceFactory w;
     cloud_login := cloud_login w;
     cloud_retrieveToken := cloud_retrieveToken w;
     cloud_apiFactory := cloud_apiFactory w;
     cloud_createProject := fun _ => Rejects e;
     cloud_localSave := cloud_localSave w |}.

(** A network failure: an error without a response. *)
Definition networkError : jsError := {| message := "ECONNREFUSED"; response := None |}.

(** A 403 answer with a message of the server. *)
Definition quotaResponse : httpResponse :=
  {| status := JNumber 403; data := JString "Trial quota exceeded" |}.

Definition quotaError : jsError :=
  {| message := "Request failed with status code 403"; response := Some quotaResponse |}.

(** ** Command lines of the examples *)

(** [myapp --quickstart --dbclient postgres] *)
Definition quickstartWithDatabase : jsobject :=
  {[ "run" := JBool true; "quickstart" := JBool true; "dbclient" := JString "postgres" ]}.

(** [myapp --quickstart --dbclient postgres --template --debug] *)
Definition quickstartWithDatabaseAndFlagTemplate : jsobject :=
  {[ "run" := JBool true; "quickstart" := JBool true; "dbclient" := JString "postgres";
     "template" := JString "--debug" ]}.

(** [myapp --dbclient postgres --skip-cloud] *)
Definition databaseOnly : jsobject :=
  {[ "run" := JBool true; "dbclient" := JString "postgres"; "skipCloud" := JBool true ]}.

(** [myapp --quickstart --skip-cloud] *)
Definition quickstartSkipCloud : jsobject :=
  {[ "run" := JBool true; "quickstart" := JBool true; "skipCloud" := JBool true ]}.

(** The record the specification gives for that run. *)
Definition claimedQuickstartOptions : jsobject :=
  {[ "directory" := JString "myapp"; "quickstart" := JBool true; "skipCloud" := JBool true ]}.

(** [--quickstart] *)
Definition quickstartOnly : jsobject :=
  {[ "run" := JBool true; "quickstart" := JBool true ]}.

(** [--quickstart --dbclient sqlite] *)
Definition quickstartSqlite : jsobject :=
  {[ "run" := JBool true; "quickstart" := JBool true; "dbclient" := JString "sqlite" ]}.

(** [myapp --template --quickstart] *)
Definition flagTemplate : jsobject :=
  {[ "run" := JBool true; "template" := JString "--quickstart" ]}.

(** [myapp --skip-cloud] *)
Definition skipCloudOnly : jsobject :=
  {[ "run" := JBool true; "skipCloud" := JBool true ]}.

(** [myapp] *)
Definition noFlags : jsobject := {[ "run" := JBool true ]}.

(** ** Vocabulary of the further properties *)

(** The run is refused before anything is generated: the template is a
    flag (line 176), [--quickstart] meets a database flag (line 181), or
    the quickstart path has no directory (line 157). *)
Definition rejected (projectName : option string) (programArgs : jsobject) : bool :=
  templateCollides programArgs
  || (truthy (js_get programArgs "quickstart") && hasDatabaseOptions programArgs)
  || (truthy (js_get (forceQuickstart programArgs) "quickstart") && negb (has_name projectName)).


(** [createProject] was called. *)
Definition isCreateProject (e : event) : bool :=
  match e with
  | CreateProject _ => true
  | _ => false
  end.


(** What the provisioner does once the user has chosen to log in (lines
    87-138). *)
Definition provisioningEvent (e : event) : bool :=
  match e with
  | SpinnerCreate _ | SpinnerStart | SpinnerSucceed _ | SpinnerFail _ | TokenServiceFactory
  | LoginAction | RetrieveToken | CloudApiFactory (Some _) | CloudConfig (Some _)
  | CreateProject _ | LocalSave _ _ | LoggerWarn _ => true
  | _ => false
  end.

(** [config.projectCreation.introText] when it can be read and is a
    string. *)
Definition introTextOf (config : jsval) : option string :=
  match js_prop config "projectCreation" with
  | Some projectCreation =>
      match js_prop projectCreation "introText" with
      | Some (JString s) => Some s
      | _ => None
      end
  | None => None
  end.

(** What the dispatcher does itself before it hands over to
    [generateApp]: install-path checks and the questions of the
    prompter. *)
Definition dispatcherEvent (e : event) : bool :=
  match e with
  | CheckInstallPath _ => true
  | Prompt name _ => negb (String.eqb name "userChoice")
  | _ => false
  end.

(** The number of events of a kind. *)
Definition occurrences (kind : event -> bool) (t : list event) : nat :=
  length (List.filter kind t).

(** A cloud configuration without the introduction text. *)
Definition configWithoutIntro : jsval := JObject {[ "projectCreation" := JObject ∅ ]}.

(** The same world with another reply of [config()]. *)
Definition answeringConfig (config : jsval) (w : World) : World :=
  {| process_argv := process_argv w;
     process_platform := process_platform w;
     process_versions_node := process_versions_node w;
     path_resolve := path_resolve w;
     parseToChalk := parseToChalk w;
     spinner_enabled := spinner_enabled w;
     typed := typed w;
     picked := picked w;
     cloud_config := fun _ => Resolves config;
     cloud_tokenServiceFactory := cloud_tokenServiceFactory w;
     cloud_login := cloud_login w;
     cloud_retrieveToken := cloud_retrieveToken w;
     cloud_apiFactory := cloud_apiFactory w;
     cloud_createProject := cloud_createProject w;
     cloud_localSave := cloud_localSave w |}.

(** The same world with another reply of the login action. *)
Definition answeringLogin (loginSuccess : jsval) (w : World) : World :=
  {| process_argv := process_argv w;
     process_platform := process_platform w;
     process_versions_node := process_versions_node w;
     path_resolve := path_resolve w;
     parseToChalk := parseToChalk w;
     spinner_enabled := spinner_enabled w;
     typed := typed w;
     picked := picked w;
     cloud_config := cloud_config w;
     cloud_tokenServiceFactory := cloud_tokenServiceFactory w;
     cloud_login := Resolves loginSuccess;
     cloud_retrieveToken := cloud_retrieveToken w;
     cloud_apiFactory := cloud_apiFactory w;
     cloud_createProject := cloud_createProject w;
     cloud_localSave := cloud_localSave w |}.

(** [myapp --template blog] *)
Definition namedTemplate : jsobject :=
  {[ "run" := JBool true; "template" := JString "blog" ]}.

(** ** The colour markup of the introduction text (lines 40-56)

    [parseToChalk] as the source computes it, for given chalk functions.
    Strings are byte strings in UTF-8.  The regular expression has no [u]
    flag: [.] passes over one code unit that is not a line terminator.
    The tags are ASCII, so passing over the bytes one by one meets the
    same tags and the same line terminators. *)
Module Markup.

(** Lines 40-48: the keys of [supportedStyles], in the order of
    [Object.entries]. *)
Definition supportedStyles : list string :=
  [ "magentaBright"; "blueBright"; "yellowBright"; "green"; "red"; "bold"; "italic" ].

(** [s.startsWith(p)] *)
Fixpoint startsWith (p s : string) : bool :=
  match p with
  | EmptyString => true
  | String a p' =>
      match s with
      | String b s' => Ascii.eqb a b && startsWith p' s'
      | EmptyString => false
      end
  end.

(** [s.slice(n)] *)
Fixpoint dropStart (n : nat) (s : string) : string :=
  match n, s with
  | O, _ => s
  | S k, String _ s' => dropStart k s'
  | S _, EmptyString => EmptyString
  end.

(** A line terminator begins here: LF, CR, U+2028 or U+2029 (the last
    two are [E2 80 A8] and [E2 80 A9] in UTF-8). *)
Definition lineTerminatorAt (s : string) : bool :=
  match s with
  | String c rest =>
      Ascii.eqb c "010" || Ascii.eqb c "013"
      || (Ascii.eqb c "226"
          && match rest with
             | String c1 (String c2 _) =>
                 Ascii.eqb c1 "128" && (Ascii.eqb c2 "168" || Ascii.eqb c2 "169")
             | _ => false
             end)
  | EmptyString => false
  end.

(** [(.*?)close] matched at the start of [s]: the shortest run of
    characters without a line terminator that the closing tag follows. *)
Fixpoint lazyUpTo (close : string) (s : string) : option string :=
  if startsWith close s then Some EmptyString
  else
    match s with
    | EmptyString => None
    | String c s' =>
        if lineTerminatorAt s then None
        else
          match lazyUpTo close s' with
          | Some inner => Some (String c inner)
          | None => None
          end
    end.

(** [open(.*?)close] matched at the start of [s]: the captured group. *)
Definition matchAt (open close : string) (s : string) : option string :=
  if startsWith open s then lazyUpTo close (dropStart (String.length open) s) else None.

(** [s.replace(new RegExp(open + "(.*?)" + close, "g"), (_, p1) => f(p1))]:
    the matches are looked for from left to right and do not overlap.
    [skip] counts the characters of the last match that are still to be
    passed over. *)
Fixpoint replaceAll (open close : string) (f : string -> string) (skip : nat) (s : string)
    : string :=
  match s with
  | EmptyString => EmptyString
  | String c s' =>
      match skip with
      | S k => replaceAll open close f k s'
      | O =>
          match matchAt open close s with
          | Some inner =>
              f inner
              +:+ replaceAll open close f
                    (String.length open + String.length inner + String.length close - 1) s'
          | None => String c (replaceAll open close f 0 s')
          end
      end
  end.

(** The white space and line terminators that [trim] removes, by the
    length of their UTF-8 form: TAB, LF, VT, FF, CR, SP; U+00A0; U+1680,
    U+2000 to U+200A, U+2028, U+2029, U+202F, U+205F, U+3000, U+FEFF. *)
Definition space1 (c : ascii) : bool :=
  (Nat.leb 9 (nat_of_ascii c) && Nat.leb (nat_of_ascii c) 13) || Ascii.eqb c " ".

Definition space2 (c c1 : ascii) : bool := Ascii.eqb c "194" && Ascii.eqb c1 "160".

Definition space3 (c c1 c2 : ascii) : bool :=
  (Ascii.eqb c "225" && Ascii.eqb c1 "154" && Ascii.eqb c2 "128")
  || (Ascii.eqb c "226" && Ascii.eqb c1 "128"
      && ((Nat.leb 128 (nat_of_ascii c2) && Nat.leb (nat_of_ascii c2) 138)
          || Ascii.eqb c2 "168" || Ascii.eqb c2 "169" || Ascii.eqb c2 "175"))
  || (Ascii.eqb c "226" && Ascii.eqb c1 "129" && Ascii.eqb c2 "159")
  || (Ascii.eqb c "227" && Ascii.eqb c1 "128" && Ascii.eqb c2 "128")
  || (Ascii.eqb c "239" && Ascii.eqb c1 "187" && Ascii.eqb c2 "191").

(** Removes the white space at the start; [two] and [three] recognise the
    forms of two and three bytes. *)
Fixpoint strip (two : ascii -> ascii -> bool) (three : ascii -> ascii -> ascii -> bool)
    (s : string) : string :=
  match s with
  | EmptyString => EmptyString
  | String c s1 =>
      if space1 c then strip two three s1
      else
        match s1 with
        | String c1 s2 =>
            if two c c1 then strip two three s2
            else
              match s2 with
              | String c2 s3 => if three c c1 c2 then strip two three s3 else s
              | EmptyString => s
              end
        | EmptyString => s
        end
  end.

Definition trimStart (s : string) : string := strip space2 space3 s.

(** The same from the end, on the reversed string. *)
Definition trimEnd (s : string) : string :=
  String.rev (strip (fun c c1 => space2 c1 c) (fun c c1 c2 => space3 c2 c1 c) (String.rev s)).

(** [s.trim()] *)
Definition trim (s : string) : string := trimEnd (trimStart s).

(** The two halves of the pattern of line 52 around its group. *)
Definition openTag (color : string) : string := "{" +:+ color +:+ "}".
Definition closeTag (color : string) : string := "{/" +:+ color +:+ "}".

(** One turn of the loop of lines 51-54. *)
Definition applyStyle (chalk : string -> string -> string) (result color : string) : string :=
  replaceAll (openTag color) (closeTag color) (fun p1 => chalk color (trim p1)) 0 result.

(** Lines 49-56; [chalk color] is the chalk function stored under
    [color]. *)
Definition parseToChalk (chalk : string -> string -> string) (template : string) : string :=
  fold_left (applyStyle chalk) supportedStyles template.

(** No opening brace in the string. *)
Fixpoint braceFree (s : string) : bool :=
  match s with
  | EmptyString => true
  | String c s' => negb (Ascii.eqb c "{") && braceFree s'
  end.

(** No line terminator in the string. *)
Fixpoint oneLine (s : string) : bool :=
  match s with
  | EmptyString => true
  | String _ s' => negb (lineTerminatorAt s) && oneLine s'
  end.

(** The pattern matches nowhere in the string. *)
Fixpoint unmatched (open close : string) (s : string) : bool :=
  match s with
  | EmptyString => true
  | String _ s' =>
      match matchAt open close s with
      | None => unmatched open close s'
      | Some _ => false
      end
  end.

(** A flat template: plain text and tagged pieces, one after another. *)
Inductive piece : Type :=
| Text (text : string)
| Tag (color inner : string).

(** The markup of a piece, as the template spells it. *)
Definition markup (p : piece) : string :=
  match p with
  | Text text => text
  | Tag color inner => openTag color +:+ inner +:+ closeTag color
  end.

Fixpoint render (ps : list piece) : string :=
  match ps with
  | [] => EmptyString
  | p :: ps' => markup p +:+ render ps'
  end.

(** What a piece is expected to become. *)
Definition styledPiece (chalk : string -> string -> string) (p : piece) : string :=
  match p with
  | Text text => text
  | Tag color inner => chalk color (trim inner)
  end.

Fixpoint styled (chalk : string -> string -> string) (ps : list piece) : string :=
  match ps with
  | [] => EmptyString
  | p :: ps' => styledPiece chalk p +:+ styled chalk ps'
  end.

(** Plain text has no opening brace; a tag names a supported style, its
    contents have no opening brace and stay on one line, and the chalk
    function adds no opening brace. *)
Definition wellFormed (chalk : string -> string -> string) (p : piece) : bool :=
  match p with
  | Text text => braceFree text
  | Tag color inner =>
      existsb (String.eqb color) supportedStyles
      && braceFree inner && oneLine inner
      && braceFree (chalk color (trim inner))
  end.

(** The pieces after the turn of the loop for [color]. *)
Definition resolve (chalk : string -> string -> string) (color : string) (p : piece) : piece :=
  match p with
  | Text _ => p
  | Tag color' inner =>
      if String.eqb color' color then Text (chalk color' (trim inner)) else p
  end.

End Markup.

(** Chalk functions that write the name of the style around the text,
    for the examples. *)
Definition bracketChalk (color text : string) : string :=
  "<" +:+ color +:+ ":" +:+ text +:+ ">".

(** The same world with [parseToChalk] as lines 49-56 compute it from
    the chalk functions. *)
Definition withChalk (chalk : string -> string -> string) (w : World) : World :=
  {| process_argv := process_argv w;
     process_platform := process_platform w;
     process_versions_node := process_versions_node w;
     path_resolve := path_resolve w;
     parseToChalk := Markup.parseToChalk chalk;
     spinner_enabled := spinner_enabled w;
     typed := typed w;
     picked := picked w;
     cloud_config := cloud_config w;
     cloud_tokenServiceFactory := cloud_tokenServiceFactory w;
     cloud_login := cloud_login w;
     cloud_retrieveToken := cloud_retrieveToken w;
     cloud_apiFactory := cloud_apiFactory w;
     cloud_createProject := cloud_createProject w;
     cloud_localSave := cloud_localSave w |}.

(** A cloud configuration with an introduction text. *)
Definition configWithIntro (introText : string) : jsval :=
  JObject {[ "projectCreation" := JObject {[ "introText" := JString introText ]} ]}.

(** An introduction as the cloud service may send it. *)
Definition welcomePieces : list Markup.piece :=
  [ Markup.Tag "bold" " Welcome "; Markup.Text " to "; Markup.Tag "green" "Strapi";
    Markup.Tag "bold" "Cloud"; Markup.Text "!" ].

Arguments js_get : simpl never.
Arguments js_set : simpl never.
Arguments js_spread2 : simpl never.
Arguments js_own : simpl never.
Arguments hasDatabaseOptions : simpl never.
Arguments templateCollides : simpl never.
Arguments programFlags : simpl never.
Arguments incompatibleMessage : simpl never.
Arguments projectPayload : simpl never.
Arguments generateStrapiAppOptions : simpl never.
Arguments forceQuickstart : simpl never.
Arguments handleCloudProject : simpl never.
Arguments js_prop : simpl never.
Arguments js_prop_opt : simpl never.
Arguments js_or : simpl never.
Arguments generateApp : simpl never.

(** * Properties *)

(** ** Objects *)

Lemma js_get_set_eq (o : jsobject) (k : string) (v : jsval) : js_get (js_set o k v) k = v.
Proof. unfold js_get, js_set. by rewrite lookup_insert_eq. Qed.

Lemma js_get_set_ne (o : jsobject) (k k' : string) (v : jsval) :
  k <> k' -> js_get (js_set o k v) k' = js_get o k'.
Proof. intros Hne. unfold js_get, js_set. by rewrite lookup_insert_ne. Qed.

Lemma hasDatabaseOptions_spec (programArgs : jsobject) :
  hasDatabaseOptions programArgs = true
  <-> exists opt, In opt databaseOptions /\ truthy (js_get programArgs opt) = true.
Proof. unfold hasDatabaseOptions. apply existsb_exists. Qed.

(** Line 180 tests the values: a database flag given the empty string
    does not count as present, and neither does an empty directory name
    at lines 20, 157 and 172. *)
Lemma empty_values_are_absent :
  hasDatabaseOptions {[ "run" := JBool true; "dbclient" := JString "" ]} = false
  /\ has_name (Some "") = false.
Proof. split; vm_compute; reflexivity. Qed.

Lemma forceQuickstart_quickstart (programArgs : jsobject) :
  js_get (forceQuickstart programArgs) "quickstart"
  = if hasDatabaseOptions programArgs then JBool false else js_get programArgs "quickstart".
Proof.
  unfold forceQuickstart. destruct (hasDatabaseOptions programArgs); [|done].
  apply js_get_set_eq.
Qed.

Lemma forceQuickstart_other (programArgs : jsobject) (k : string) :
  k <> "quickstart" -> forceQuickstart programArgs !! k = programArgs !! k.
Proof.
  intros Hne. unfold forceQuickstart, js_set.
  destruct (hasDatabaseOptions programArgs); [|done].
  by rewrite lookup_insert_ne.
Qed.

(** The merge of lines 202-205 leaves every key but the two of [options]. *)
Lemma generateStrapiAppOptions_other (programArgs : jsobject) (prompt : Answers) (k : string) :
  k <> "template" -> k <> "quickstart" ->
  generateStrapiAppOptions programArgs prompt !! k = programArgs !! k.
Proof.
  intros Ht Hq. unfold generateStrapiAppOptions, js_spread2.
  rewrite lookup_union_r; [done|].
  rewrite lookup_insert_ne by done. by rewrite lookup_singleton_ne.
Qed.

Lemma generateStrapiAppOptions_template (programArgs : jsobject) (prompt : Answers) :
  js_get (generateStrapiAppOptions programArgs prompt) "template" = js_get programArgs "template".
Proof.
  unfold generateStrapiAppOptions, js_spread2. unfold js_get at 1.
  erewrite lookup_union_Some_l; [done|]. by rewrite lookup_insert_eq.
Qed.

Lemma generateStrapiAppOptions_quickstart (programArgs : jsobject) (prompt : Answers) :
  js_get (generateStrapiAppOptions programArgs prompt) "quickstart"
  = js_or (of_quick (quick prompt)) (js_get programArgs "quickstart").
Proof.
  unfold generateStrapiAppOptions, js_spread2. unfold js_get at 1.
  erewrite lookup_union_Some_l; [done|].
  rewrite lookup_insert_ne by done. by rewrite lookup_singleton_eq.
Qed.

(** The flags that a template value may not be. *)
Lemma programFlags_spelled :
  programFlags
  = [ "-V"; "--version"; "--no-run"; "--use-npm"; "--debug"; "--quickstart"; "--skip-cloud";
      "--dbclient"; "--dbhost"; "--dbport"; "--dbname"; "--dbusername"; "--dbpassword";
      "--dbssl"; "--dbfile"; "--dbforce"; "--template"; "--ts"; "--typescript"; "-h";
      "--help" ].
Proof. vm_compute. reflexivity. Qed.

Lemma includes_In (l : list string) (v : jsval) :
  includes l v = true <-> exists t, v = JString t /\ In t l.
Proof.
  destruct v as [| | | |t|]; simpl; try (split; [discriminate | intros (t & ? & _); discriminate]).
  rewrite existsb_exists. split.
  - intros (x & Hx & Heq). apply String.eqb_eq in Heq. subst x. by exists t.
  - intros (x & [= <-] & Hx). exists t. split; [done|]. apply String.eqb_refl.
Qed.

Lemma flags_truthy (t : string) : In t programFlags -> truthy (JString t) = true.
Proof.
  rewrite programFlags_spelled. intros Hin. simpl.
  destruct (String.eqb_spec t "") as [->|]; [|done].
  repeat (destruct Hin as [Hin|Hin]; [discriminate Hin|]). destruct Hin.
Qed.

Lemma templateCollides_spec (programArgs : jsobject) :
  templateCollides programArgs = true
  <-> exists t, js_get programArgs "template" = JString t /\ In t programFlags.
Proof.
  unfold templateCollides. rewrite andb_true_iff, includes_In. split.
  - by intros [_ H].
  - intros (t & Heq & Hin). split; [|by exists t]. rewrite Heq. by apply flags_truthy.
Qed.

(** ** Events of composed computations *)

Section Contained.
Context {A B : Type} (P : event -> Prop).

Lemma contained_ret (a : A) : contained P (ret a).
Proof. intros w s. constructor. Qed.

Lemma contained_throw (e : jsError) : contained P (@throw A e).
Proof. intros w s. constructor. Qed.

Lemma contained_asks (f : World -> A) : contained P (asks f).
Proof. intros w s. constructor. Qed.

Lemma contained_bind (m : M A) (k : A -> M B) :
  contained P m -> (forall a, contained P (k a)) -> contained P (bind m k).
Proof.
  intros Hm Hk w s. unfold bind. specialize (Hm w s).
  destruct (m w s) as [[[a|e|c] s'] t]; simpl in *; try done.
  specialize (Hk a w s'). destruct (k a w s') as [[o s''] t']. simpl in *.
  by apply Forall_app.
Qed.

Lemma contained_try (body : M A) (handler : jsError -> M A) :
  contained P body -> (forall e, contained P (handler e)) ->
  contained P (try_catch body handler).
Proof.
  intros Hm Hk w s. unfold try_catch. specialize (Hm w s).
  destruct (body w s) as [[[a|e|c] s'] t]; simpl in *; try done.
  specialize (Hk e w s'). destruct (handler e w s') as [[o s''] t']. simpl in *.
  by apply Forall_app.
Qed.
End Contained.

Lemma contained_emit (P : event -> Prop) (e : event) : P e -> contained P (emit e).
Proof. intros He w s. by repeat constructor. Qed.

Lemma contained_get_spinning (P : event -> Prop) : contained P get_spinning.
Proof. intros w s. constructor. Qed.

Lemma contained_set_spinning (P : event -> Prop) (b : bool) : contained P (set_spinning b).
Proof. intros w s. constructor. Qed.

Lemma contained_await {A} (P : event -> Prop) (e : event) (r : World -> reply A) :
  P e -> contained P (await e r).
Proof.
  intros He. unfold await. apply contained_bind; [by apply contained_emit|]. intros _.
  apply contained_bind; [apply contained_asks|]. intros [a|err].
  - apply contained_ret.
  - apply contained_throw.
Qed.

Lemma contained_or_TypeError {A} (P : event -> Prop) (v : option A) :
  contained P (or_TypeError v).
Proof. destruct v; [apply contained_ret | apply contained_throw]. Qed.

Create HintDb contained.
#[local] Hint Resolve contained_ret contained_throw contained_asks contained_emit
  contained_get_spinning contained_set_spinning contained_await contained_or_TypeError
  : contained.

(** Splits a sequence, a [try] or a branch and closes the leaves. *)
Ltac contained_step :=
  first
    [ apply contained_bind; [|intros ?]
    | apply contained_try; [|intros ?]
    | match goal with
      | |- contained _ (if ?c then _ else _) => destruct c
      | |- contained _ (match ?x with _ => _ end) => destruct x
      end
    | solve [auto with contained] ].

(** ** The cloud provisioner *)

(** Everything [handleCloudProject] does is a cloud event. *)
Lemma handleCloudProject_cloud (projectName : string) :
  contained (fun e => cloudEvent e = true) (handleCloudProject projectName).
Proof.
  unfold handleCloudProject, fetchIntro, createCloudProject, cloudFailure, failOr,
    assertCloudError, ask_list, spinner_create, spinner_start, spinner_succeed, spinner_fail.
  repeat contained_step.
Qed.

(** The innermost stuck [match] of the goal, split with its equation. *)
Ltac case_scrutinee :=
  match goal with
  | |- context [match ?x with _ => _ end] =>
      lazymatch x with
      | context [match _ with _ => _ end] => fail
      | _ => destruct x eqn:?
      end
  end.

Ltac unfold_cloud :=
  unfold handleCloudProject, fetchIntro, createCloudProject, cloudFailure, failOr,
    assertCloudError, ask_list, await, or_TypeError, spinner_create, spinner_start,
    spinner_succeed, spinner_fail, try_catch, bind, ret, throw, emit, asks, get_spinning,
    set_spinning.

(** No failure of the cloud service leaves [handleCloudProject]: it
    always returns. *)
Lemma handleCloudProject_returns (w : World) (projectName : string) (spinning : bool) :
  fst (fst (handleCloudProject projectName w spinning)) = Returned tt.
Proof.
  unfold_cloud.
  repeat (cbn; case_scrutinee); cbn;
    repeat match goal with u : unit |- _ => destruct u end; reflexivity.
Qed.

Lemma bind_emit_first {A} (e : event) (k : unit -> M A) (w : World) (spinning : bool) :
  exists rest, snd (bind (emit e) k w spinning) = e :: rest.
Proof.
  unfold bind, emit. destruct (k tt w spinning) as [[o s'] t]. simpl. by eexists.
Qed.

(** Its first act is the creation of the logger, so a call is visible in
    the events. *)
Lemma handleCloudProject_first (w : World) (projectName : string) (spinning : bool) :
  exists rest,
    snd (handleCloudProject projectName w spinning)
    = CreateLogger (includes_string (process_argv w) "--debug") :: rest.
Proof.
  unfold handleCloudProject. unfold bind at 1. unfold asks at 1.
  match goal with
  | |- context [bind (emit ?e) ?k w spinning] =>
      destruct (bind_emit_first e k w spinning) as [rest Hrest];
      destruct (bind (emit e) k w spinning) as [[o s'] t]
  end.
  simpl in *. by exists rest.
Qed.

(** ** The dispatcher *)

Lemma firstInstallCheck_run (w : World) (projectName : option string) (spinning : bool) :
  when_ (has_name projectName) (checkInstallPath projectName) w spinning
  = (Returned tt, spinning, firstInstallCheck projectName w).
Proof.
  unfold firstInstallCheck, events.
  destruct projectName as [name|]; [destruct (has_name (Some name))|]; reflexivity.
Qed.

Lemma firstInstallCheck_spec (w : World) (projectName : option string) :
  firstInstallCheck projectName w
  = match projectName with
    | Some name => if has_name projectName then [CheckInstallPath (path_resolve w name)] else []
    | None => []
    end.
Proof.
  unfold firstInstallCheck, events.
  destruct projectName as [name|]; [destruct (has_name (Some name))|]; reflexivity.
Qed.

(** Without a directory [generateApp] stops at line 159. *)
Lemma generateApp_unnamed (w : World) (projectName : option string) (options : jsobject)
    (spinning : bool) :
  has_name projectName = false ->
  generateApp projectName options w spinning
  = (Exited 1, spinning, [ConsoleError missingDirectoryMessage]).
Proof. intros Hn. unfold generateApp. rewrite Hn. reflexivity. Qed.

(** With a directory [generateApp] runs the cloud part, which returns, and
    then the generator. *)
Lemma generateApp_named (w : World) (name : string) (options : jsobject) (spinning : bool) :
  has_name (Some name) = true ->
  generateApp (Some name) options w spinning
  = (afterGeneration w,
     snd (fst (cloudPart name options w spinning)),
     (snd (cloudPart name options w spinning) ++ [GenerateNewApp name options])%list).
Proof.
  intros Hn. unfold generateApp, cloudPart, afterGeneration. rewrite Hn.
  destruct (truthy (js_get options "skipCloud")).
  - cbn. destruct (String.eqb (process_platform w) "win32"); reflexivity.
  - pose proof (handleCloudProject_returns w name spinning) as Hret.
    cbv [bind emit asks when_ ret process_exit or_TypeError negb].
    destruct (handleCloudProject name w spinning) as [[o s'] t]. simpl in Hret. subst o.
    destruct (String.eqb (process_platform w) "win32"); simpl; by rewrite ?app_nil_r.
Qed.

Lemma cloudPart_skipped (w : World) (name : string) (options : jsobject) (spinning : bool) :
  truthy (js_get options "skipCloud") = true ->
  cloudPart name options w spinning = (Returned tt, spinning, []).
Proof. intros Hs. unfold cloudPart. by rewrite Hs. Qed.

Lemma cloudPart_run (w : World) (name : string) (options : jsobject) (spinning : bool) :
  truthy (js_get options "skipCloud") = false ->
  snd (cloudPart name options w spinning)
  = CheckRequirements :: snd (handleCloudProject name w spinning).
Proof.
  intros Hs. unfold cloudPart. rewrite Hs. cbn.
  by destruct (handleCloudProject name w spinning) as [[o s'] t].
Qed.

Lemma cloudPart_contained (name : string) (options : jsobject) :
  contained (fun e => cloudEvent e = true \/ e = CheckRequirements) (cloudPart name options).
Proof.
  unfold cloudPart, when_. destruct (negb _); [|apply contained_ret].
  apply contained_bind; [apply contained_emit; by right|]. intros _ w s.
  eapply Forall_impl; [apply handleCloudProject_cloud|]. intros e He. by left.
Qed.

(** The generator is called at most once, by the last act of
    [generateApp], with the arguments of [generateApp]. *)
Lemma generateApp_generator (w : World) (projectName : option string) (options : jsobject)
    (spinning : bool) (name : string) (opts : jsobject) :
  In (GenerateNewApp name opts) (snd (generateApp projectName options w spinning)) ->
  projectName = Some name /\ opts = options.
Proof.
  destruct (has_name projectName) eqn:Hn.
  - destruct projectName as [n|]; [|discriminate]. rewrite generateApp_named by done.
    simpl. rewrite in_app_iff. intros [Hin|Hin].
    + pose proof (cloudPart_contained n options w spinning) as Hc.
      rewrite Forall_forall in Hc. apply list_elem_of_In, Hc in Hin.
      destruct Hin; discriminate.
    + destruct Hin as [[= -> ->]|[]]. done.
  - rewrite generateApp_unnamed by done. simpl. intros [?|[]]. discriminate.
Qed.

(** The prompter: its answers and its questions. *)
Lemma promptUser_run (w : World) (projectName : option string) (program : jsobject)
    (hasDb : bool) (spinning : bool) :
  promptUser projectName program hasDb w spinning
  = (Returned
       {| directory :=
            if has_name projectName then None
            else Some (if String.eqb (typed w "directory") "" then "my-strapi-project"
                       else typed w "directory");
          quick :=
            if negb (truthy (js_get program "quickstart")) && negb hasDb
            then Some (nth (picked w "quick") [true; false] true)
            else None |},
     spinning,
     ((if has_name projectName then []
       else [Prompt "directory" "What would you like to name your project?"])
      ++ (if negb (truthy (js_get program "quickstart")) && negb hasDb
          then [Prompt "quick" "Choose your installation type"]
          else []))%list).
Proof.
  unfold promptUser.
  destruct (has_name projectName), (negb (truthy (js_get program "quickstart")) && negb hasDb);
    reflexivity.
Qed.

(** After the prompter the directory is known. *)
Lemma prompted_name (w : World) (projectName : option string) :
  exists name,
    name_or (if has_name projectName then None
             else Some (if String.eqb (typed w "directory") "" then "my-strapi-project"
                        else typed w "directory")) projectName = Some name
    /\ has_name (Some name) = true.
Proof.
  destruct (has_name projectName) eqn:Hn.
  - destruct projectName as [n|]; [|discriminate]. exists n. by rewrite Hn.
  - destruct (String.eqb_spec (typed w "directory") "") as [Heq|Hne].
    + by exists "my-strapi-project".
    + exists (typed w "directory"). unfold name_or, has_name. simpl.
      by destruct (String.eqb_spec (typed w "directory") "").
Qed.

(** ** The four ways through [initProject] *)

Lemma initProject_template (w : World) (projectName : option string) (programArgs : jsobject) :
  templateCollides programArgs = true ->
  initProject projectName programArgs w false
  = (Exited 1, false,
     (firstInstallCheck projectName w
      ++ [ConsoleError (js_to_string (js_get programArgs "template")
                        +:+ " is not a valid template")])%list).
Proof.
  intros Ht. unfold initProject. unfold bind at 1. rewrite firstInstallCheck_run.
  unfold templateCheck. rewrite Ht. reflexivity.
Qed.

Lemma initProject_incompatible (w : World) (projectName : option string)
    (programArgs : jsobject) :
  templateCollides programArgs = false ->
  truthy (js_get programArgs "quickstart") && hasDatabaseOptions programArgs = true ->
  initProject projectName programArgs w false
  = (Exited 1, false,
     (firstInstallCheck projectName w ++ [ConsoleError incompatibleMessage])%list).
Proof.
  intros Ht Hq. unfold initProject. unfold bind at 1. rewrite firstInstallCheck_run.
  unfold templateCheck, quickstartCheck. rewrite Ht, Hq. reflexivity.
Qed.

Lemma initProject_quickstart (w : World) (projectName : option string) (programArgs : jsobject) :
  templateCollides programArgs = false ->
  truthy (js_get programArgs "quickstart") && hasDatabaseOptions programArgs = false ->
  truthy (js_get (forceQuickstart programArgs) "quickstart") = true ->
  initProject projectName programArgs w false
  = (fst (fst (generateApp projectName (forceQuickstart programArgs) w false)),
     snd (fst (generateApp projectName (forceQuickstart programArgs) w false)),
     (firstInstallCheck projectName w
      ++ snd (generateApp projectName (forceQuickstart programArgs) w false))%list).
Proof.
  intros Ht Hq Hf. unfold initProject. unfold bind at 1. rewrite firstInstallCheck_run.
  unfold templateCheck, quickstartCheck. rewrite Ht, Hq, Hf.
  cbv [bind when_ ret].
  by destruct (generateApp projectName (forceQuickstart programArgs) w false) as [[o s] t].
Qed.

Lemma initProject_prompted (w : World) (projectName : option string) (programArgs : jsobject) :
  interactive programArgs ->
  exists name,
    name_or (directory (answersOf w projectName programArgs)) projectName = Some name
    /\ has_name (Some name) = true
    /\ outcome (promptUser projectName (forceQuickstart programArgs)
                  (hasDatabaseOptions programArgs)) w
       = Returned (answersOf w projectName programArgs)
    /\ let options :=
         generateStrapiAppOptions (forceQuickstart programArgs)
           (answersOf w projectName programArgs) in
       initProject projectName programArgs w false
       = (fst (fst (generateApp (Some name) options w false)),
          snd (fst (generateApp (Some name) options w false)),
          (firstInstallCheck projectName w
           ++ events (promptUser projectName (forceQuickstart programArgs)
                        (hasDatabaseOptions programArgs)) w
           ++ CheckInstallPath (path_resolve w name)
              :: snd (generateApp (Some name) options w false))%list).
Proof.
  intros (Ht & Hq & Hf).
  destruct (prompted_name w projectName) as (name & Hname & Hn).
  exists name. unfold outcome, events. rewrite promptUser_run.
  split; [done|]. split; [done|]. split; [done|]. cbn zeta.
  unfold initProject. unfold bind at 1. rewrite firstInstallCheck_run.
  unfold templateCheck, quickstartCheck. rewrite Ht, Hq, Hf.
  cbv [bind when_ ret]. rewrite promptUser_run. cbv [directory]. rewrite Hname.
  cbv [checkInstallPath or_TypeError bind ret asks emit].
  fold (answersOf w projectName programArgs).
  destruct (generateApp (Some name) _ w false) as [[o s] t]. cbn [fst snd app].
  by rewrite Hf.
Qed.

(** ** What the parts of a run can emit *)

Lemma firstInstallCheck_quiet (w : World) (projectName : option string) (e : event) :
  In e (firstInstallCheck projectName w) -> exists path, e = CheckInstallPath path.
Proof.
  rewrite firstInstallCheck_spec.
  destruct projectName as [name|]; [destruct (has_name (Some name))|]; simpl; try tauto.
  intros [<-|[]]. by eexists.
Qed.

Lemma promptUser_events (w : World) (projectName : option string) (program : jsobject)
    (hasDb : bool) (e : event) :
  In e (events (promptUser projectName program hasDb) w) ->
  exists name msg, e = Prompt name msg /\ (name = "directory" \/ name = "quick").
Proof.
  unfold events. rewrite promptUser_run. cbn [snd]. rewrite in_app_iff.
  intros [Hin|Hin].
  - destruct (has_name projectName); [destruct Hin|]. destruct Hin as [<-|[]].
    eexists _, _. split; [done|]. by left.
  - destruct (_ && _); [|destruct Hin]. destruct Hin as [<-|[]].
    eexists _, _. split; [done|]. by right.
Qed.

Lemma js_get_lookup (o o' : jsobject) (k : string) :
  o !! k = o' !! k -> js_get o k = js_get o' k.
Proof. unfold js_get. by intros ->. Qed.

(** A cloud event of [generateApp] comes from a call of
    [handleCloudProject], which the generator follows. *)
Lemma generateApp_cloud (w : World) (projectName : option string) (options : jsobject)
    (spinning : bool) (e : event) :
  In e (snd (generateApp projectName options w spinning)) ->
  cloudEvent e = true ->
  exists name,
    projectName = Some name
    /\ truthy (js_get options "skipCloud") = false
    /\ In e (snd (handleCloudProject name w spinning))
    /\ generateApp projectName options w spinning
       = (afterGeneration w, snd (fst (cloudPart name options w spinning)),
          (CheckRequirements :: snd (handleCloudProject name w spinning)
           ++ [GenerateNewApp name options])%list).
Proof.
  intros Hin Hc. destruct (has_name projectName) eqn:Hn.
  - destruct projectName as [name|]; [|discriminate]. exists name.
    rewrite generateApp_named in Hin |- * by done. cbn [snd] in Hin.
    destruct (truthy (js_get options "skipCloud")) eqn:Hs.
    + rewrite cloudPart_skipped in Hin by done. destruct Hin as [<-|[]]. discriminate.
    + rewrite cloudPart_run in Hin |- * by done. split; [done|]. split; [done|].
      split; [|done]. cbn in Hin. rewrite in_app_iff in Hin.
      destruct Hin as [<-|[Hin|[<-|[]]]]; try discriminate. done.
  - rewrite generateApp_unnamed in Hin by done. destruct Hin as [<-|[]]. discriminate.
Qed.

(** With [skipCloud] set [generateApp] causes no cloud event. *)
Lemma generateApp_skipCloud (w : World) (projectName : option string) (options : jsobject)
    (spinning : bool) :
  truthy (js_get options "skipCloud") = true ->
  Forall (fun e => cloudEvent e = false) (snd (generateApp projectName options w spinning)).
Proof.
  intros Hs. apply Forall_forall. intros e Hin%list_elem_of_In.
  destruct (cloudEvent e) eqn:Hc; [|done].
  destruct (generateApp_cloud _ _ _ _ _ Hin Hc) as (name & _ & Hs' & _). congruence.
Qed.

(** A run either stops at a validation or is a prefix of quiet events
    followed by one call of [generateApp]. *)
Lemma initProject_shape (w : World) (projectName : option string) (programArgs : jsobject) :
  (exists msg,
      initProject projectName programArgs w false
      = (Exited 1, false, (firstInstallCheck projectName w ++ [ConsoleError msg])%list))
  \/ (exists before name options,
        Forall (fun e => cloudEvent e = false) before
        /\ (forall k, k <> "template" -> k <> "quickstart" -> options !! k = programArgs !! k)
        /\ initProject projectName programArgs w false
           = (fst (fst (generateApp name options w false)),
              snd (fst (generateApp name options w false)),
              (before ++ snd (generateApp name options w false))%list)).
Proof.
  assert (Forall (fun e => cloudEvent e = false) (firstInstallCheck projectName w)) as Hfirst.
  { apply Forall_forall. intros e Hin%list_elem_of_In.
    by destruct (firstInstallCheck_quiet _ _ _ Hin) as [path ->]. }
  destruct (templateCollides programArgs) eqn:Ht.
  { left. eexists. by apply initProject_template. }
  destruct (truthy (js_get programArgs "quickstart") && hasDatabaseOptions programArgs) eqn:Hq.
  { left. eexists. by apply initProject_incompatible. }
  right.
  destruct (truthy (js_get (forceQuickstart programArgs) "quickstart")) eqn:Hf.
  - exists (firstInstallCheck projectName w), projectName, (forceQuickstart programArgs).
    split; [done|]. split; [intros k _ Hk; by apply forceQuickstart_other|].
    by apply initProject_quickstart.
  - destruct (initProject_prompted w projectName programArgs) as (name & _ & _ & _ & Heq).
    { done. }
    exists (firstInstallCheck projectName w
              ++ events (promptUser projectName (forceQuickstart programArgs)
                           (hasDatabaseOptions programArgs)) w
              ++ [CheckInstallPath (path_resolve w name)])%list.
    eexists (Some name), _. split; [|split; [|rewrite Heq; by rewrite <- !app_assoc]].
    + apply Forall_app. split; [done|]. apply Forall_app. split.
      * apply Forall_forall. intros e Hin%list_elem_of_In.
        destruct (promptUser_events _ _ _ _ _ Hin) as (n & msg & -> & [->| ->]); done.
      * by repeat constructor.
    + intros k Hkt Hkq. rewrite generateStrapiAppOptions_other by done.
      by apply forceQuickstart_other.
Qed.

(** The message of line 183 names every database flag. *)
Lemma incompatibleMessage_names_all :
  Forall (fun opt => mentions incompatibleMessage opt = true) databaseOptions.
Proof.
  unfold databaseOptions.
  repeat (constructor; [vm_compute; reflexivity|]). constructor.
Qed.

(** * The claims *)

(** ** Validation of the flags *)

(** C1, as amended.  When [--quickstart] is set, some database flag is
    present (its value is truthy, which is what line 180 tests) and the
    template value is not a flag of the command, the run ends with exit
    code 1 right after the first install-path check, and the message it
    prints names all eight database flags, the conflicting ones among
    them. *)
Theorem C1_quickstart_with_database_flags (w : World) (projectName : option string)
    (programArgs : jsobject) :
  truthy (js_get programArgs "quickstart") = true ->
  (exists opt, In opt databaseOptions /\ truthy (js_get programArgs opt) = true) ->
  templateCollides programArgs = false ->
  outcome (initProject projectName programArgs) w = Exited 1
  /\ events (initProject projectName programArgs) w
     = (firstInstallCheck projectName w ++ [ConsoleError incompatibleMessage])%list
  /\ Forall (fun opt => mentions incompatibleMessage opt = true) databaseOptions.
Proof.
  intros Hq Hdb%hasDatabaseOptions_spec Ht.
  unfold outcome, events. rewrite initProject_incompatible; [|done|by rewrite Hq, Hdb].
  split; [done|]. split; [done|]. apply incompatibleMessage_names_all.
Qed.

Lemma C1_quickstart_with_database_flags_witness :
  outcome (initProject (Some "myapp") quickstartWithDatabase) sampleWorld = Exited 1
  /\ events (initProject (Some "myapp") quickstartWithDatabase) sampleWorld
     = (firstInstallCheck (Some "myapp") sampleWorld ++ [ConsoleError incompatibleMessage])%list
  /\ Forall (fun opt => mentions incompatibleMessage opt = true) databaseOptions.
Proof.
  apply (C1_quickstart_with_database_flags sampleWorld (Some "myapp") quickstartWithDatabase).
  - vm_compute. reflexivity.
  - exists "dbclient". split; [left; reflexivity | vm_compute; reflexivity].
  - vm_compute. reflexivity.
Defined.

(** C1 as stated fails when the template value is itself a flag: the
    template error of line 177 is printed, and it names no database flag. *)
Lemma C1_counterexample :
  parse ["myapp"; "--quickstart"; "--dbclient"; "postgres"; "--template"; "--debug"]
  = Action (Some "myapp") quickstartWithDatabaseAndFlagTemplate
  /\ truthy (js_get quickstartWithDatabaseAndFlagTemplate "quickstart") = true
  /\ truthy (js_get quickstartWithDatabaseAndFlagTemplate "dbclient") = true
  /\ outcome (initProject (Some "myapp") quickstartWithDatabaseAndFlagTemplate) sampleWorld
     = Exited 1
  /\ events (initProject (Some "myapp") quickstartWithDatabaseAndFlagTemplate) sampleWorld
     = [CheckInstallPath "/home/dev/myapp"; ConsoleError "--debug is not a valid template"]
  /\ mentions "--debug is not a valid template" "dbclient" = false
  /\ ~ In (ConsoleError incompatibleMessage)
         (events (initProject (Some "myapp") quickstartWithDatabaseAndFlagTemplate) sampleWorld).
Proof.
  vm_compute. repeat split; try reflexivity.
  intros [H|[H|[]]]; discriminate H.
Qed.

(** The generator is not among the events of the first check. *)
Lemma firstInstallCheck_no_generator (w : World) (projectName : option string)
    (name : string) (opts : jsobject) :
  ~ In (GenerateNewApp name opts) (firstInstallCheck projectName w).
Proof. intros Hin. by destruct (firstInstallCheck_quiet _ _ _ Hin). Qed.

(** Where a call of the generator comes from: the quickstart path hands
    it the option values, the interactive path the merged record. *)
Lemma initProject_generator (w : World) (projectName : option string) (programArgs : jsobject)
    (name : string) (opts : jsobject) :
  In (GenerateNewApp name opts) (events (initProject projectName programArgs) w) ->
  templateCollides programArgs = false
  /\ truthy (js_get programArgs "quickstart") && hasDatabaseOptions programArgs = false
  /\ ((truthy (js_get (forceQuickstart programArgs) "quickstart") = true
       /\ projectName = Some name /\ opts = forceQuickstart programArgs)
      \/ (truthy (js_get (forceQuickstart programArgs) "quickstart") = false
          /\ name_or (directory (answersOf w projectName programArgs)) projectName = Some name
          /\ opts = generateStrapiAppOptions (forceQuickstart programArgs)
                      (answersOf w projectName programArgs))).
Proof.
  unfold events. intros Hin.
  destruct (templateCollides programArgs) eqn:Ht.
  { rewrite initProject_template in Hin by done. cbn [snd] in Hin.
    apply in_app_iff in Hin as [Hin|[Hin|[]]]; [|discriminate].
    by apply firstInstallCheck_no_generator in Hin. }
  destruct (truthy (js_get programArgs "quickstart") && hasDatabaseOptions programArgs) eqn:Hq.
  { rewrite initProject_incompatible in Hin by done. cbn [snd] in Hin.
    apply in_app_iff in Hin as [Hin|[Hin|[]]]; [|discriminate].
    by apply firstInstallCheck_no_generator in Hin. }
  split; [done|]. split; [done|].
  destruct (truthy (js_get (forceQuickstart programArgs) "quickstart")) eqn:Hf.
  - left. rewrite initProject_quickstart in Hin by done. cbn [snd] in Hin.
    apply in_app_iff in Hin as [Hin|Hin].
    { by apply firstInstallCheck_no_generator in Hin. }
    by apply generateApp_generator in Hin as [-> ->].
  - right. destruct (initProject_prompted w projectName programArgs) as (n & Hn & _ & _ & Heq).
    { done. }
    cbn zeta in Heq. rewrite Heq in Hin. cbn [snd] in Hin.
    apply in_app_iff in Hin as [Hin|Hin].
    { by apply firstInstallCheck_no_generator in Hin. }
    apply in_app_iff in Hin as [Hin|Hin].
    { by destruct (promptUser_events _ _ _ _ _ Hin) as (? & ? & ? & _). }
    destruct Hin as [Hin|Hin]; [discriminate|].
    apply generateApp_generator in Hin as [[= ->] ->]. done.
Qed.

(** C2.  When some database flag is present (its value is truthy), every
    call of the generator receives [quickstart: false]; and unless the
    run stops at a validation (the template is a flag, or [--quickstart]
    was supplied too) the generator is called. *)
Theorem C2_database_flags_force_quickstart_false (w : World) (projectName : option string)
    (programArgs : jsobject) :
  (exists opt, In opt databaseOptions /\ truthy (js_get programArgs opt) = true) ->
  (forall name opts,
      In (GenerateNewApp name opts) (events (initProject projectName programArgs) w) ->
      js_get opts "quickstart" = JBool false)
  /\ (templateCollides programArgs = false ->
      truthy (js_get programArgs "quickstart") = false ->
      exists name opts,
        In (GenerateNewApp name opts) (events (initProject projectName programArgs) w)).
Proof.
  intros Hdb%hasDatabaseOptions_spec.
  assert (js_get (forceQuickstart programArgs) "quickstart" = JBool false) as Hforced.
  { by rewrite forceQuickstart_quickstart, Hdb. }
  split.
  - intros name opts Hin.
    apply initProject_generator in Hin as (_ & _ & [(Hf & _)|(_ & _ & ->)]).
    { by rewrite Hforced in Hf. }
    rewrite generateStrapiAppOptions_quickstart, Hforced.
    unfold answersOf. cbn [quick]. rewrite Hdb, andb_false_r. reflexivity.
  - intros Ht Hq.
    destruct (initProject_prompted w projectName programArgs) as (n & _ & Hn & _ & Heq).
    { split; [done|]. split; [by rewrite Hq|]. by rewrite Hforced. }
    cbn zeta in Heq. unfold events. rewrite Heq. cbn [snd].
    rewrite generateApp_named by done. cbn [snd].
    eexists n, _. apply in_or_app. right. apply in_or_app. right. right.
    apply in_or_app. right. by left.
Qed.

Lemma C2_database_flags_force_quickstart_false_witness :
  (forall name opts,
      In (GenerateNewApp name opts) (events (initProject (Some "myapp") databaseOnly) sampleWorld) ->
      js_get opts "quickstart" = JBool false)
  /\ (templateCollides databaseOnly = false ->
      truthy (js_get databaseOnly "quickstart") = false ->
      exists name opts,
        In (GenerateNewApp name opts)
          (events (initProject (Some "myapp") databaseOnly) sampleWorld)).
Proof.
  apply (C2_database_flags_force_quickstart_false sampleWorld (Some "myapp") databaseOnly).
  exists "dbclient". split; [left; reflexivity | vm_compute; reflexivity].
Defined.

(** C3.  When the skip-cloud option is set, no run causes a cloud event:
    no logger or cloud client is created, no configuration is fetched, the
    login question is not asked, no project is created and nothing is
    saved.  By [handleCloudProject_first] a call of [handleCloudProject]
    would show as a [CreateLogger] event, so it is never called. *)
Theorem C3_skip_cloud_never_provisions (w : World) (projectName : option string)
    (programArgs : jsobject) :
  truthy (js_get programArgs "skipCloud") = true ->
  Forall (fun e => cloudEvent e = false) (events (initProject projectName programArgs) w).
Proof.
  intros Hs. unfold events.
  destruct (initProject_shape w projectName programArgs)
    as [(msg & ->)|(before & name & options & Hb & Hframe & ->)]; cbn [snd].
  - apply Forall_app. split; [|by repeat constructor].
    apply Forall_forall. intros e Hin%list_elem_of_In.
    by destruct (firstInstallCheck_quiet _ _ _ Hin) as [path ->].
  - apply Forall_app. split; [done|]. apply generateApp_skipCloud.
    rewrite (js_get_lookup options programArgs "skipCloud"); [done|by apply Hframe].
Qed.

Lemma C3_skip_cloud_never_provisions_witness :
  Forall (fun e => cloudEvent e = false)
    (events (initProject (Some "myapp") skipCloudOnly) sampleWorld).
Proof.
  apply (C3_skip_cloud_never_provisions sampleWorld (Some "myapp") skipCloudOnly).
  vm_compute. reflexivity.
Defined.

(** C6, as amended.  With [--quickstart] and without a directory every
    run exits with code 1 and never calls the generator.  The message
    that asks for the directory is the one printed when, in addition, the
    template value is not a flag and no database flag is present;
    otherwise an earlier check has printed its own error. *)
Theorem C6_quickstart_without_directory (w : World) (projectName : option string)
    (programArgs : jsobject) :
  truthy (js_get programArgs "quickstart") = true ->
  has_name projectName = false ->
  outcome (initProject projectName programArgs) w = Exited 1
  /\ (forall name opts,
         ~ In (GenerateNewApp name opts) (events (initProject projectName programArgs) w))
  /\ (templateCollides programArgs = false ->
      hasDatabaseOptions programArgs = false ->
      events (initProject projectName programArgs) w = [ConsoleError missingDirectoryMessage]).
Proof.
  intros Hq Hn.
  assert (firstInstallCheck projectName w = []) as Hfirst.
  { rewrite firstInstallCheck_spec. destruct projectName; [by rewrite Hn|done]. }
  assert (hasDatabaseOptions programArgs = false ->
          truthy (js_get (forceQuickstart programArgs) "quickstart") = true) as Hf.
  { intros Hdb. by rewrite forceQuickstart_quickstart, Hdb. }
  unfold outcome, events.
  destruct (templateCollides programArgs) eqn:Ht.
  { rewrite initProject_template by done. rewrite Hfirst. cbn.
    split; [done|]. split; [|done]. intros name opts [?|[]]. discriminate. }
  destruct (hasDatabaseOptions programArgs) eqn:Hdb.
  { rewrite initProject_incompatible; [|done|by rewrite Hq, Hdb]. rewrite Hfirst. cbn.
    split; [done|]. split; [|done]. intros name opts [?|[]]. discriminate. }
  rewrite initProject_quickstart; [|done|by rewrite Hdb, andb_false_r|by apply Hf].
  rewrite generateApp_unnamed, Hfirst by done. cbn.
  split; [done|]. split; [|done]. intros name opts [?|[]]. discriminate.
Qed.

Lemma C6_quickstart_without_directory_witness :
  outcome (initProject None quickstartOnly) sampleWorld = Exited 1
  /\ (forall name opts,
         ~ In (GenerateNewApp name opts) (events (initProject None quickstartOnly) sampleWorld))
  /\ (templateCollides quickstartOnly = false ->
      hasDatabaseOptions quickstartOnly = false ->
      events (initProject None quickstartOnly) sampleWorld
      = [ConsoleError missingDirectoryMessage]).
Proof.
  apply (C6_quickstart_without_directory sampleWorld None quickstartOnly).
  - vm_compute. reflexivity.
  - vm_compute. reflexivity.
Defined.

(** C6 as stated fails when a database flag comes with [--quickstart]:
    the run stops at line 187 and prints the incompatibility message, not
    the one that asks for the directory. *)
Lemma C6_counterexample :
  parse ["--quickstart"; "--dbclient"; "sqlite"] = Action None quickstartSqlite
  /\ truthy (js_get quickstartSqlite "quickstart") = true
  /\ outcome (initProject None quickstartSqlite) sampleWorld = Exited 1
  /\ events (initProject None quickstartSqlite) sampleWorld
     = [ConsoleError
          "The quickstart option is incompatible with the following options: dbclient, dbhost, dbport, dbname, dbusername, dbpassword, dbssl, dbfile"]
  /\ ~ In (ConsoleError missingDirectoryMessage)
         (events (initProject None quickstartSqlite) sampleWorld).
Proof.
  vm_compute. repeat split; try reflexivity.
  intros [H|[]]; discriminate H.
Qed.

(** C8.  A template value that is one of the flags of the command (short
    or long) ends the run after the first install-path check: the error
    names the value and the exit code is 1.  For any other template
    value, or none, the template check returns without printing or
    exiting, whatever came before it. *)
Theorem C8_template_must_not_be_a_flag (w : World) (projectName : option string)
    (programArgs : jsobject) :
  (forall t,
      js_get programArgs "template" = JString t ->
      In t programFlags ->
      outcome (initProject projectName programArgs) w = Exited 1
      /\ events (initProject projectName programArgs) w
         = (firstInstallCheck projectName w
            ++ [ConsoleError (t +:+ " is not a valid template")])%list)
  /\ ((forall t, js_get programArgs "template" = JString t -> ~ In t programFlags) ->
      forall spinning, templateCheck programArgs w spinning = (Returned tt, spinning, [])).
Proof.
  split.
  - intros t Heq Hin.
    assert (templateCollides programArgs = true) as Ht.
    { apply templateCollides_spec. by exists t. }
    unfold outcome, events. rewrite initProject_template by done. by rewrite Heq.
  - intros Hno spinning.
    assert (templateCollides programArgs = false) as Ht.
    { destruct (templateCollides programArgs) eqn:Ht; [|done].
      apply templateCollides_spec in Ht as (t & Heq & Hin). by destruct (Hno t Heq). }
    unfold templateCheck. by rewrite Ht.
Qed.

Lemma C8_template_must_not_be_a_flag_witness :
  (outcome (initProject (Some "myapp") flagTemplate) sampleWorld = Exited 1
   /\ events (initProject (Some "myapp") flagTemplate) sampleWorld
      = (firstInstallCheck (Some "myapp") sampleWorld
         ++ [ConsoleError ("--quickstart" +:+ " is not a valid template")])%list)
  /\ templateCheck noFlags sampleWorld false = (Returned tt, false, []).
Proof.
  split.
  - apply (proj1 (C8_template_must_not_be_a_flag sampleWorld (Some "myapp") flagTemplate)
             "--quickstart").
    + vm_compute. reflexivity.
    + vm_compute. tauto.
  - apply (proj2 (C8_template_must_not_be_a_flag sampleWorld (Some "myapp") noFlags)).
    intros t Heq. vm_compute in Heq. discriminate Heq.
Defined.

(** ** Failures of the cloud service *)

(** A rejected first [config()] ends [handleCloudProject] at line 76. *)
Lemma handleCloudProject_config_rejected (w : World) (projectName : string) (spinning : bool)
    (e : jsError) :
  cloud_config w None = Rejects e ->
  handleCloudProject projectName w spinning
  = (Returned tt, spinning,
     [ CreateLogger (includes_string (process_argv w) "--debug"); CloudApiFactory None;
       CloudConfig None; LoggerDebug [DError e]; LoggerError defaultErrorMessage ]).
Proof. intros Hc. unfold_cloud. rewrite Hc. reflexivity. Qed.

(** C5.  In every run in which the first [config()] is called and
    rejects, the provisioner logs the generic error and stops: the run
    goes on with exactly the events listed, no login question and no
    other cloud call among them, and ends with the call of the generator
    and the outcome of a generation. *)
Theorem C5_config_failure_skips_provisioning (w : World) (projectName : option string)
    (programArgs : jsobject) (e : jsError) :
  In (CloudConfig None) (events (initProject projectName programArgs) w) ->
  cloud_config w None = Rejects e ->
  exists before name options,
    Forall (fun ev => cloudEvent ev = false) before
    /\ events (initProject projectName programArgs) w
       = (before
          ++ [ CheckRequirements;
               CreateLogger (includes_string (process_argv w) "--debug");
               CloudApiFactory None; CloudConfig None; LoggerDebug [DError e];
               LoggerError defaultErrorMessage; GenerateNewApp name options ])%list
    /\ outcome (initProject projectName programArgs) w = afterGeneration w.
Proof.
  unfold outcome, events. intros Hin Hc.
  destruct (initProject_shape w projectName programArgs)
    as [(msg & Heq)|(before & pn & options & Hb & _ & Heq)]; rewrite Heq in Hin |- *;
    cbn [fst snd] in *.
  - apply in_app_iff in Hin as [Hin|[Hin|[]]]; [|discriminate].
    by destruct (firstInstallCheck_quiet _ _ _ Hin).
  - apply in_app_iff in Hin as [Hin|Hin].
    { rewrite Forall_forall in Hb. by apply list_elem_of_In, Hb in Hin. }
    destruct (generateApp_cloud _ _ _ _ _ Hin eq_refl) as (name & -> & _ & _ & Hrun).
    rewrite Hrun. cbn [fst snd].
    rewrite (handleCloudProject_config_rejected _ _ _ _ Hc). cbn [snd app].
    by exists before, name, options.
Qed.

Lemma C5_config_failure_skips_provisioning_witness :
  exists before name options,
    Forall (fun ev => cloudEvent ev = false) before
    /\ events (initProject (Some "myapp") quickstartOnly) (failingConfig networkError sampleWorld)
       = (before
          ++ [ CheckRequirements;
               CreateLogger
                 (includes_string (process_argv (failingConfig networkError sampleWorld))
                    "--debug");
               CloudApiFactory None; CloudConfig None; LoggerDebug [DError networkError];
               LoggerError defaultErrorMessage; GenerateNewApp name options ])%list
    /\ outcome (initProject (Some "myapp") quickstartOnly) (failingConfig networkError sampleWorld)
       = afterGeneration (failingConfig networkError sampleWorld).
Proof.
  apply (C5_config_failure_skips_provisioning (failingConfig networkError sampleWorld)
           (Some "myapp") quickstartOnly networkError).
  - apply (nth_error_In _ 4). vm_compute. reflexivity.
  - reflexivity.
Defined.
(** Looks for an event in an explicit list of events. *)
Ltac find_event H :=
  lazymatch type of H with
  | False => destruct H
  | _ \/ _ => destruct H as [H|H]; [first [discriminate H | idtac] | find_event H]
  end.

(** Two equations on the same term are one equation on their right-hand
    sides. *)
Ltac merge_equations :=
  repeat match goal with
         | H1 : ?x = _, H2 : ?x = _ |- _ => rewrite H1 in H2; simplify_eq
         end.

(** Cuts the last three events off the explicit list of the goal. *)
Ltac cut_last_three :=
  lazymatch goal with
  | |- exists before, ?l = _ /\ _ =>
      exists (firstn (length l - 3) l); split; [reflexivity | cbn; repeat constructor]
  end.

(** A 403 answer to [createProject]: the handler shows the message of
    line 123 and returns, before anything is saved. *)
Lemma handleCloudProject_forbidden (w : World) (projectName : string) (spinning : bool)
    (payload : jsobject) (e : jsError) (r : httpResponse) :
  In (CreateProject payload) (snd (handleCloudProject projectName w spinning)) ->
  cloud_createProject w payload = Rejects e ->
  response e = Some r ->
  status r = JNumber 403 ->
  exists before,
    snd (handleCloudProject projectName w spinning)
    = (before
       ++ [ CreateProject payload; LoggerDebug [DError e];
            if spinner_enabled w then SpinnerFail (forbiddenMessage r)
            else LoggerWarn (forbiddenMessage r) ])%list
    /\ Forall (fun ev => isLocalSave ev = false) before.
Proof.
  intros Hin Hrej Hresp Hstatus. revert Hin. unfold_cloud.
  repeat (cbn; case_scrutinee); cbn; intros Hin; find_event Hin; simplify_eq; merge_equations.
  all: try match goal with
           | H : strict_eq_number (status ?x) 403 = false, Hs : status ?x = JNumber 403 |- _ =>
               rewrite Hs in H; discriminate H
           end.
  all: cut_last_three.
Qed.
Lemma forbiddenMessage_spec (r : httpResponse) :
  (forall s, data r = JString s -> forbiddenMessage r = s)
  /\ (typeof_string (data r) = false -> forbiddenMessage r = forbiddenFallback).
Proof.
  unfold forbiddenMessage. split.
  - by intros s ->.
  - by intros ->.
Qed.

(** C4.  In every run in which [createProject] is called and rejects
    with a 403 response, the events from that call on are the debug line,
    the message of line 123 (on the spinner while it spins, else as a
    warning) and the call of the generator: nothing is saved, before or
    after, and the run ends as a generation does.  The message is the
    body of the response when that is a string and the fixed fallback
    otherwise. *)
Theorem C4_forbidden_project_creation (w : World) (projectName : option string)
    (programArgs : jsobject) (payload : jsobject) (e : jsError) (r : httpResponse) :
  In (CreateProject payload) (events (initProject projectName programArgs) w) ->
  cloud_createProject w payload = Rejects e ->
  response e = Some r ->
  status r = JNumber 403 ->
  exists before name options,
    events (initProject projectName programArgs) w
    = (before
       ++ [ CreateProject payload; LoggerDebug [DError e];
            if spinner_enabled w then SpinnerFail (forbiddenMessage r)
            else LoggerWarn (forbiddenMessage r);
            GenerateNewApp name options ])%list
    /\ Forall (fun ev => isLocalSave ev = false) before
    /\ (forall s, data r = JString s -> forbiddenMessage r = s)
    /\ (typeof_string (data r) = false -> forbiddenMessage r = forbiddenFallback)
    /\ outcome (initProject projectName programArgs) w = afterGeneration w.
Proof.
  unfold outcome, events. intros Hin Hrej Hresp Hstatus.
  destruct (initProject_shape w projectName programArgs)
    as [(msg & Heq)|(pre & pn & options & Hpre & _ & Heq)]; rewrite Heq in Hin |- *;
    cbn [fst snd] in *.
  - apply in_app_iff in Hin as [Hin|[Hin|[]]]; [|discriminate].
    by destruct (firstInstallCheck_quiet _ _ _ Hin).
  - apply in_app_iff in Hin as [Hin|Hin].
    { rewrite Forall_forall in Hpre. by apply list_elem_of_In, Hpre in Hin. }
    destruct (generateApp_cloud _ _ _ _ _ Hin eq_refl) as (name & -> & _ & Hin' & Hrun).
    rewrite Hrun. cbn [fst snd].
    destruct (handleCloudProject_forbidden _ _ _ _ _ _ Hin' Hrej Hresp Hstatus)
      as (before & -> & Hbefore).
    exists (pre ++ CheckRequirements :: before)%list, name, options.
    split; [|split; [|split; [|split]]].
    + rewrite <- (app_assoc pre). f_equal. cbn [app]. f_equal. by rewrite <- app_assoc.
    + apply Forall_app. split; [|by constructor].
      eapply Forall_impl; [exact Hpre|]. intros ev Hev. by destruct ev.
    + apply forbiddenMessage_spec.
    + apply forbiddenMessage_spec.
    + done.
Qed.

Lemma C4_forbidden_project_creation_witness :
  exists before name options,
    events (initProject (Some "myapp") quickstartOnly) (refusingProjects quotaError sampleWorld)
    = (before
       ++ [ CreateProject (projectPayload sampleWorld (JObject ∅) "myapp");
            LoggerDebug [DError quotaError];
            if spinner_enabled (refusingProjects quotaError sampleWorld)
            then SpinnerFail (forbiddenMessage quotaResponse)
            else LoggerWarn (forbiddenMessage quotaResponse);
            GenerateNewApp name options ])%list
    /\ Forall (fun ev => isLocalSave ev = false) before
    /\ (forall s, data quotaResponse = JString s -> forbiddenMessage quotaResponse = s)
    /\ (typeof_string (data quotaResponse) = false ->
        forbiddenMessage quotaResponse = forbiddenFallback)
    /\ outcome (initProject (Some "myapp") quickstartOnly)
         (refusingProjects quotaError sampleWorld)
       = afterGeneration (refusingProjects quotaError sampleWorld).
Proof.
  apply (C4_forbidden_project_creation (refusingProjects quotaError sampleWorld)
           (Some "myapp") quickstartOnly (projectPayload sampleWorld (JObject ∅) "myapp")
           quotaError quotaResponse).
  - apply (nth_error_In _ 18). vm_compute. reflexivity.
  - reflexivity.
  - reflexivity.
  - reflexivity.
Defined.

(** ** The end-to-end run [myapp --quickstart --skip-cloud] *)

(** C7, as amended.  The command line [myapp --quickstart --skip-cloud]
    is accepted by the parser; the run checks the install path and calls
    the generator, with the name ["myapp"] as first argument and the
    option values [{run: true, quickstart: true, skipCloud: true}] as
    second, and ends as a generation does.  No question is asked and no
    cloud event occurs: these two events are all there is. *)
Theorem C7_quickstart_skip_cloud_run (w : World) :
  process_argv w = ["myapp"; "--quickstart"; "--skip-cloud"] ->
  parse (process_argv w) = Action (Some "myapp") quickstartSkipCloud
  /\ events main w
     = [CheckInstallPath (path_resolve w "myapp"); GenerateNewApp "myapp" quickstartSkipCloud]
  /\ outcome main w = afterGeneration w.
Proof.
  intros Hargv.
  assert (parse (process_argv w) = Action (Some "myapp") quickstartSkipCloud) as Hparse.
  { rewrite Hargv. vm_compute. reflexivity. }
  split; [done|].
  assert (forceQuickstart quickstartSkipCloud = quickstartSkipCloud) as Hforce.
  { vm_compute. reflexivity. }
  assert (main w false
          = (afterGeneration w, false,
             [CheckInstallPath (path_resolve w "myapp");
              GenerateNewApp "myapp" quickstartSkipCloud])) as Hrun.
  { unfold main, bind, asks. rewrite Hparse.
    destruct (initProject (Some "myapp") quickstartSkipCloud w false) as [[o s] t] eqn:Hinit.
    rewrite initProject_quickstart in Hinit; [|vm_compute; reflexivity..].
    rewrite Hforce, generateApp_named in Hinit by reflexivity.
    rewrite cloudPart_skipped in Hinit by (vm_compute; reflexivity).
    rewrite firstInstallCheck_spec in Hinit. cbn in Hinit. by injection Hinit as <- <- <-. }
  unfold events, outcome. by rewrite Hrun.
Qed.

Lemma C7_quickstart_skip_cloud_run_witness :
  parse (process_argv (with_argv ["myapp"; "--quickstart"; "--skip-cloud"] sampleWorld))
  = Action (Some "myapp") quickstartSkipCloud
  /\ events main (with_argv ["myapp"; "--quickstart"; "--skip-cloud"] sampleWorld)
     = [CheckInstallPath
          (path_resolve (with_argv ["myapp"; "--quickstart"; "--skip-cloud"] sampleWorld)
             "myapp");
        GenerateNewApp "myapp" quickstartSkipCloud]
  /\ outcome main (with_argv ["myapp"; "--quickstart"; "--skip-cloud"] sampleWorld)
     = afterGeneration (with_argv ["myapp"; "--quickstart"; "--skip-cloud"] sampleWorld).
Proof.
  apply (C7_quickstart_skip_cloud_run
           (with_argv ["myapp"; "--quickstart"; "--skip-cloud"] sampleWorld)).
  reflexivity.
Defined.

(** C7 as stated fails on the record: the options passed to the
    generator have no [directory] key (the name is the first argument of
    [generateNewApp]) and carry [run: true], the preset of [--no-run]. *)
Lemma C7_counterexample :
  events main (with_argv ["myapp"; "--quickstart"; "--skip-cloud"] sampleWorld)
  = [CheckInstallPath "/home/dev/myapp"; GenerateNewApp "myapp" quickstartSkipCloud]
  /\ js_get quickstartSkipCloud "directory" = JUndefined
  /\ js_get quickstartSkipCloud "run" = JBool true
  /\ quickstartSkipCloud <> claimedQuickstartOptions
  /\ forall name,
       ~ In (GenerateNewApp name claimedQuickstartOptions)
           (events main (with_argv ["myapp"; "--quickstart"; "--skip-cloud"] sampleWorld)).
Proof.
  assert (quickstartSkipCloud <> claimedQuickstartOptions) as Hne.
  { intros Heq. apply (f_equal (fun o => js_get o "directory")) in Heq.
    vm_compute in Heq. discriminate Heq. }
  split; [vm_compute; reflexivity|]. split; [vm_compute; reflexivity|].
  split; [vm_compute; reflexivity|]. split; [exact Hne|].
  intros name Hin.
  assert (events main (with_argv ["myapp"; "--quickstart"; "--skip-cloud"] sampleWorld)
          = [CheckInstallPath "/home/dev/myapp"; GenerateNewApp "myapp" quickstartSkipCloud])
    as Hev by (vm_compute; reflexivity).
  rewrite Hev in Hin. destruct Hin as [Hin|[Hin|[]]]; [discriminate Hin|].
  injection Hin as _ Heq. by apply Hne.
Qed.

(** ** The prompter *)

(** What [generateApp] can emit. *)
Lemma generateApp_events (w : World) (projectName : option string) (options : jsobject)
    (spinning : bool) (e : event) :
  In e (snd (generateApp projectName options w spinning)) ->
  cloudEvent e = true \/ e = CheckRequirements
  \/ e = ConsoleError missingDirectoryMessage
  \/ exists name, e = GenerateNewApp name options.
Proof.
  destruct (has_name projectName) eqn:Hn.
  - destruct projectName as [name|]; [|discriminate]. rewrite generateApp_named by done.
    cbn [snd]. rewrite in_app_iff. intros [Hin|[<-|[]]].
    + pose proof (cloudPart_contained name options w spinning) as Hc.
      rewrite Forall_forall in Hc. apply list_elem_of_In, Hc in Hin. tauto.
    + right. right. right. by exists name.
  - rewrite generateApp_unnamed by done. intros [<-|[]]. tauto.
Qed.

(** The two questions of [promptUser] are asked by nobody else. *)
Lemma asked_by_prompter (w : World) (projectName : option string) (programArgs : jsobject)
    (question : string) :
  interactive programArgs ->
  question <> "userChoice" ->
  asked question (events (initProject projectName programArgs) w)
  <-> asked question
        (events (promptUser projectName (forceQuickstart programArgs)
                   (hasDatabaseOptions programArgs)) w).
Proof.
  intros Hi Hq.
  destruct (initProject_prompted w projectName programArgs Hi) as (name & _ & _ & _ & Heq).
  cbn zeta in Heq. unfold events at 1. rewrite Heq. cbn [snd]. unfold asked.
  split; intros [msg Hin]; exists msg.
  - apply in_app_iff in Hin as [Hin|Hin].
    { by destruct (firstInstallCheck_quiet _ _ _ Hin). }
    apply in_app_iff in Hin as [Hin|[Hin|Hin]]; [done|discriminate|].
    apply generateApp_events in Hin as [Hc|[?|[?|[? ?]]]]; try discriminate.
    cbn in Hc. apply String.eqb_eq in Hc. done.
  - apply in_or_app. right. apply in_or_app. by left.
Qed.

(** C9.  In every run that reaches the prompter, the directory is asked
    for exactly when no directory was supplied (line 20 tests
    [!projectName]), and the installation type exactly when
    [--quickstart] was not passed and no database option is present. *)
Theorem C9_prompter_questions (w : World) (projectName : option string)
    (programArgs : jsobject) :
  interactive programArgs ->
  (asked "directory" (events (initProject projectName programArgs) w)
   <-> has_name projectName = false)
  /\ (asked "quick" (events (initProject projectName programArgs) w)
      <-> truthy (js_get programArgs "quickstart") = false
          /\ hasDatabaseOptions programArgs = false).
Proof.
  intros Hi. rewrite !asked_by_prompter by done.
  destruct Hi as (_ & _ & Hf).
  unfold asked, events. rewrite promptUser_run. cbn [snd]. rewrite Hf. cbn [negb andb].
  rewrite forceQuickstart_quickstart in Hf.
  split; split.
  - intros [msg Hin]. apply in_app_iff in Hin as [Hin|Hin].
    + by destruct (has_name projectName).
    + destruct (negb _); [|done]. destruct Hin as [?|[]]. discriminate.
  - intros ->. eexists. apply in_or_app. left. by left.
  - intros [msg Hin]. apply in_app_iff in Hin as [Hin|Hin].
    + destruct (has_name projectName); [done|]. destruct Hin as [?|[]]. discriminate.
    + by destruct (hasDatabaseOptions programArgs).
  - intros [_ ->]. eexists. apply in_or_app. right. by left.
Qed.

Lemma C9_prompter_questions_witness :
  (asked "directory" (events (initProject None noFlags) sampleWorld)
   <-> has_name None = false)
  /\ (asked "quick" (events (initProject None noFlags) sampleWorld)
      <-> truthy (js_get noFlags "quickstart") = false
          /\ hasDatabaseOptions noFlags = false).
Proof.
  apply (C9_prompter_questions sampleWorld None noFlags).
  repeat split; vm_compute; reflexivity.
Defined.

(** ** The merged options *)

(** C10, as amended.  In every interactive run the record passed to the
    generator keeps every option value except [template] and
    [quickstart]: [template] is written with the parsed value, and
    [quickstart] with [prompt.quick || programArgs.quickstart], that is
    [true] when the answer is Quickstart, and otherwise (Custom chosen,
    or no question asked) the value the options hold at that point: the
    parsed one, or [false] when database flags forced it. *)
Theorem C10_merged_options_frame (w : World) (projectName : option string)
    (programArgs : jsobject) (name : string) (opts : jsobject) :
  interactive programArgs ->
  In (GenerateNewApp name opts) (events (initProject projectName programArgs) w) ->
  exists prompt,
    outcome (promptUser projectName (forceQuickstart programArgs)
               (hasDatabaseOptions programArgs)) w = Returned prompt
    /\ (forall k, k <> "template" -> k <> "quickstart" -> opts !! k = programArgs !! k)
    /\ js_get opts "template" = js_get programArgs "template"
    /\ js_get opts "quickstart"
       = js_or (of_quick (quick prompt)) (js_get (forceQuickstart programArgs) "quickstart")
    /\ (quick prompt = Some true -> js_get opts "quickstart" = JBool true)
    /\ (quick prompt <> Some true ->
        js_get opts "quickstart" = js_get (forceQuickstart programArgs) "quickstart")
    /\ js_get (forceQuickstart programArgs) "quickstart"
       = if hasDatabaseOptions programArgs then JBool false
         else js_get programArgs "quickstart".
Proof.
  intros Hi Hin.
  destruct (initProject_prompted w projectName programArgs Hi) as (_ & _ & _ & Hprompt & _).
  destruct Hi as (_ & _ & Hf).
  apply initProject_generator in Hin as (_ & _ & [(Hf' & _)|(_ & _ & ->)]); [congruence|].
  exists (answersOf w projectName programArgs). split; [done|].
  split; [|split; [|split; [|split; [|split]]]].
  - intros k Hkt Hkq. rewrite generateStrapiAppOptions_other by done.
    by apply forceQuickstart_other.
  - rewrite generateStrapiAppOptions_template. apply js_get_lookup.
    by apply forceQuickstart_other.
  - apply generateStrapiAppOptions_quickstart.
  - intros Hq. by rewrite generateStrapiAppOptions_quickstart, Hq.
  - intros Hq. rewrite generateStrapiAppOptions_quickstart.
    by destruct (quick (answersOf w projectName programArgs)) as [[|]|].
  - apply forceQuickstart_quickstart.
Qed.

Lemma C10_merged_options_frame_witness :
  exists prompt,
    outcome (promptUser (Some "myapp") (forceQuickstart skipCloudOnly)
               (hasDatabaseOptions skipCloudOnly)) sampleWorld = Returned prompt
    /\ (forall k, k <> "template" -> k <> "quickstart" ->
                  generateStrapiAppOptions (forceQuickstart skipCloudOnly)
                    (answersOf sampleWorld (Some "myapp") skipCloudOnly) !! k
                  = skipCloudOnly !! k)
    /\ js_get (generateStrapiAppOptions (forceQuickstart skipCloudOnly)
                 (answersOf sampleWorld (Some "myapp") skipCloudOnly)) "template"
       = js_get skipCloudOnly "template"
    /\ js_get (generateStrapiAppOptions (forceQuickstart skipCloudOnly)
                 (answersOf sampleWorld (Some "myapp") skipCloudOnly)) "quickstart"
       = js_or (of_quick (quick prompt)) (js_get (forceQuickstart skipCloudOnly) "quickstart")
    /\ (quick prompt = Some true ->
        js_get (generateStrapiAppOptions (forceQuickstart skipCloudOnly)
                  (answersOf sampleWorld (Some "myapp") skipCloudOnly)) "quickstart"
        = JBool true)
    /\ (quick prompt <> Some true ->
        js_get (generateStrapiAppOptions (forceQuickstart skipCloudOnly)
                  (answersOf sampleWorld (Some "myapp") skipCloudOnly)) "quickstart"
        = js_get (forceQuickstart skipCloudOnly) "quickstart")
    /\ js_get (forceQuickstart skipCloudOnly) "quickstart"
       = if hasDatabaseOptions skipCloudOnly then JBool false
         else js_get skipCloudOnly "quickstart".
Proof.
  apply (C10_merged_options_frame sampleWorld (Some "myapp") skipCloudOnly "myapp"
           (generateStrapiAppOptions (forceQuickstart skipCloudOnly)
              (answersOf sampleWorld (Some "myapp") skipCloudOnly))).
  - repeat split; vm_compute; reflexivity.
  - apply (nth_error_In _ 3). vm_compute. reflexivity.
Defined.

(** C10 as stated fails when the user answers Custom: the answer is
    [false], the parsed [quickstart] is [undefined], and the record
    passed to the generator holds [undefined], not the answer. *)
Lemma C10_counterexample :
  interactive skipCloudOnly
  /\ outcome (promptUser (Some "myapp") (forceQuickstart skipCloudOnly)
                (hasDatabaseOptions skipCloudOnly)) (choosing "quick" 1 sampleWorld)
     = Returned {| directory := None; quick := Some false |}
  /\ js_get skipCloudOnly "quickstart" = JUndefined
  /\ events (initProject (Some "myapp") skipCloudOnly) (choosing "quick" 1 sampleWorld)
     = [ CheckInstallPath "/home/dev/myapp";
         Prompt "quick" "Choose your installation type";
         CheckInstallPath "/home/dev/myapp";
         GenerateNewApp "myapp"
           {[ "run" := JBool true; "skipCloud" := JBool true; "template" := JUndefined;
              "quickstart" := JUndefined ]} ]
  /\ js_get {[ "run" := JBool true; "skipCloud" := JBool true; "template" := JUndefined;
               "quickstart" := JUndefined ]} "quickstart"
     <> JBool false.
Proof.
  split; [repeat split; vm_compute; reflexivity|].
  split; [vm_compute; reflexivity|]. split; [vm_compute; reflexivity|].
  split; [vm_compute; reflexivity|].
  vm_compute. discriminate.
Qed.

(** * Further properties of the dispatcher *)






Lemma flags_begin_with_dash : forallb (String.prefix "-") programFlags = true.
Proof. vm_compute. reflexivity. Qed.

(** X2.  The template check of line 176 only refuses values that look
    like options: a template value that is not a string, or that does not
    begin with a dash, never collides, whatever it is. *)
Theorem template_without_dash_accepted (programArgs : jsobject) :
  (forall t, js_get programArgs "template" = JString t -> String.prefix "-" t = false) ->
  templateCollides programArgs = false
  /\ forall w spinning, templateCheck programArgs w spinning = (Returned tt, spinning, []).
Proof.
  intros Hdash.
  assert (templateCollides programArgs = false) as Ht.
  { destruct (templateCollides programArgs) eqn:Ht; [|done].
    apply templateCollides_spec in Ht as (t & Heq & Hin).
    pose proof flags_begin_with_dash as Hall. rewrite forallb_forall in Hall.
    specialize (Hall t Hin). rewrite (Hdash t Heq) in Hall. discriminate Hall. }
  split; [done|]. intros w spinning. unfold templateCheck. by rewrite Ht.
Qed.

Lemma template_without_dash_accepted_witness :
  templateCollides namedTemplate = false
  /\ forall w spinning, templateCheck namedTemplate w spinning = (Returned tt, spinning, []).
Proof.
  apply (template_without_dash_accepted namedTemplate).
  intros t Heq. vm_compute in Heq. injection Heq as <-. vm_compute. reflexivity.
Defined.

(** X3.  When the directory is asked for, the generator is called with
    what the user typed, and with ["my-strapi-project"], the default of
    line 17, when the user typed nothing: an interactive run never
    reaches the generator without a name. *)
Theorem prompted_directory_reaches_generator (w : World) (projectName : option string)
    (programArgs : jsobject) :
  interactive programArgs ->
  has_name projectName = false ->
  exists before opts,
    events (initProject projectName programArgs) w
    = (before
       ++ [GenerateNewApp
             (if String.eqb (typed w "directory") "" then "my-strapi-project"
              else typed w "directory")
             opts])%list
    /\ asked "directory" before.
Proof.
  intros Hi Hn.
  destruct (initProject_prompted w projectName programArgs Hi) as (name & Hname & Hn' & _ & Heq).
  cbn zeta in Heq. unfold events at 1. rewrite Heq. cbn [snd].
  rewrite generateApp_named by done. cbn [snd].
  unfold answersOf in Hname. cbn [directory] in Hname. rewrite Hn in Hname.
  unfold name_or in Hname.
  assert (name = if String.eqb (typed w "directory") "" then "my-strapi-project"
                 else typed w "directory") as <-.
  { destruct (has_name (Some _)) eqn:Hh in Hname; [by injection Hname|].
    subst projectName. by rewrite Hn' in Hn. }
  eexists (firstInstallCheck projectName w
           ++ events (promptUser projectName (forceQuickstart programArgs)
                        (hasDatabaseOptions programArgs)) w
           ++ CheckInstallPath (path_resolve w name) :: snd (cloudPart name _ w false))%list, _.
  split; [by rewrite <- !app_assoc|].
  eexists. apply in_or_app. right. apply in_or_app. left.
  unfold events. rewrite promptUser_run. cbn [snd]. rewrite Hn. by left.
Qed.

Lemma prompted_directory_reaches_generator_witness :
  exists before opts,
    events (initProject None skipCloudOnly) sampleWorld
    = (before
       ++ [GenerateNewApp
             (if String.eqb (typed sampleWorld "directory") "" then "my-strapi-project"
              else typed sampleWorld "directory")
             opts])%list
    /\ asked "directory" before.
Proof.
  apply (prompted_directory_reaches_generator sampleWorld None skipCloudOnly).
  - repeat split; vm_compute; reflexivity.
  - reflexivity.
Defined.

(** X4.  The generator is only called for a directory whose install path
    was checked earlier in the same run (line 173 on the quickstart path,
    line 197 on the interactive one). *)
Theorem generator_after_install_check (w : World) (projectName : option string)
    (programArgs : jsobject) (name : string) (opts : jsobject) :
  In (GenerateNewApp name opts) (events (initProject projectName programArgs) w) ->
  exists before after,
    events (initProject projectName programArgs) w
    = (before ++ CheckInstallPath (path_resolve w name) :: after)%list
    /\ In (GenerateNewApp name opts) after.
Proof.
  intros Hin. pose proof Hin as Hgen.
  apply initProject_generator in Hgen
    as (Ht & Hq & [(Hf & -> & ->)|(Hf & Hname & ->)]); unfold events in *.
  - rewrite initProject_quickstart in Hin |- * by done. cbn [snd] in *.
    apply in_app_iff in Hin as [Hin|Hin].
    { by apply firstInstallCheck_no_generator in Hin. }
    destruct (has_name (Some name)) eqn:Hn.
    + rewrite firstInstallCheck_spec, Hn.
      by exists [], (snd (generateApp (Some name) (forceQuickstart programArgs) w false)).
    + rewrite generateApp_unnamed in Hin by done. destruct Hin as [?|[]]. discriminate.
  - destruct (initProject_prompted w projectName programArgs) as (n & Hn & Hn' & _ & Heq).
    { done. }
    cbn zeta in Heq. rewrite Hname in Hn. injection Hn as <-.
    rewrite Heq. cbn [snd]. rewrite Heq in Hin. cbn [snd] in Hin.
    eexists (firstInstallCheck projectName w
             ++ events (promptUser projectName (forceQuickstart programArgs)
                          (hasDatabaseOptions programArgs)) w)%list, _.
    split; [by rewrite <- app_assoc|].
    rewrite generateApp_named by done. cbn [snd]. apply in_or_app. right. by left.
Qed.

Lemma generator_after_install_check_witness :
  exists before after,
    events (initProject (Some "myapp") quickstartSkipCloud) sampleWorld
    = (before ++ CheckInstallPath (path_resolve sampleWorld "myapp") :: after)%list
    /\ In (GenerateNewApp "myapp" quickstartSkipCloud) after.
Proof.
  apply (generator_after_install_check sampleWorld (Some "myapp") quickstartSkipCloud).
  apply (nth_error_In _ 1). vm_compute. reflexivity.
Defined.

(** X5.  With [--quickstart] the prompter is never consulted: whatever
    else is on the command line, neither the directory nor the
    installation type is asked for.  (The login question of the cloud
    provisioner is another matter: only [--skip-cloud] removes it.) *)
Theorem quickstart_never_prompts (w : World) (projectName : option string)
    (programArgs : jsobject) :
  truthy (js_get programArgs "quickstart") = true ->
  ~ asked "directory" (events (initProject projectName programArgs) w)
  /\ ~ asked "quick" (events (initProject projectName programArgs) w).
Proof.
  intros Hq.
  assert (forall question, question <> "userChoice" ->
            ~ asked question (events (initProject projectName programArgs) w)) as Hno;
    [|split; by apply Hno].
  intros question Hne [msg Hin]. unfold events in Hin.
  assert (~ In (Prompt question msg) (firstInstallCheck projectName w)) as Hfirst.
  { intros Hin'. by destruct (firstInstallCheck_quiet _ _ _ Hin'). }
  destruct (templateCollides programArgs) eqn:Ht.
  { rewrite initProject_template in Hin by done. cbn [snd] in Hin.
    apply in_app_iff in Hin as [Hin|[Hin|[]]]; [done|discriminate]. }
  destruct (hasDatabaseOptions programArgs) eqn:Hdb.
  { rewrite initProject_incompatible in Hin; [|done|by rewrite Hq, Hdb]. cbn [snd] in Hin.
    apply in_app_iff in Hin as [Hin|[Hin|[]]]; [done|discriminate]. }
  rewrite initProject_quickstart in Hin;
    [|done|by rewrite Hdb, andb_false_r|by rewrite forceQuickstart_quickstart, Hdb].
  cbn [snd] in Hin. apply in_app_iff in Hin as [Hin|Hin]; [done|].
  apply generateApp_events in Hin as [Hc|[?|[?|[? ?]]]]; try discriminate.
  cbn in Hc. by apply String.eqb_eq in Hc.
Qed.

Lemma quickstart_never_prompts_witness :
  ~ asked "directory" (events (initProject None quickstartOnly) sampleWorld)
  /\ ~ asked "quick" (events (initProject None quickstartOnly) sampleWorld).
Proof.
  apply (quickstart_never_prompts sampleWorld None quickstartOnly).
  vm_compute. reflexivity.
Defined.

Lemma firstInstallCheck_dispatcher (w : World) (projectName : option string) :
  Forall (fun e => dispatcherEvent e = true) (firstInstallCheck projectName w).
Proof.
  apply Forall_forall. intros e Hin%list_elem_of_In.
  by destruct (firstInstallCheck_quiet _ _ _ Hin) as [path ->].
Qed.

Lemma promptUser_dispatcher (w : World) (projectName : option string) (program : jsobject)
    (hasDb : bool) :
  Forall (fun e => dispatcherEvent e = true) (events (promptUser projectName program hasDb) w).
Proof.
  apply Forall_forall. intros e Hin%list_elem_of_In.
  by destruct (promptUser_events _ _ _ _ _ Hin) as (n & msg & -> & [->| ->]).
Qed.

(** A refused run. *)
Lemma initProject_rejected (w : World) (projectName : option string) (programArgs : jsobject) :
  rejected projectName programArgs = true ->
  exists msg,
    initProject projectName programArgs w false
    = (Exited 1, false, (firstInstallCheck projectName w ++ [ConsoleError msg])%list).
Proof.
  unfold rejected. intros Hr.
  destruct (templateCollides programArgs) eqn:Ht.
  { eexists. by apply initProject_template. }
  destruct (truthy (js_get programArgs "quickstart") && hasDatabaseOptions programArgs) eqn:Hq.
  { eexists. by apply initProject_incompatible. }
  cbn [orb] in Hr. apply andb_prop in Hr as [Hf Hn%negb_true_iff].
  rewrite initProject_quickstart by done. rewrite generateApp_unnamed by done.
  by eexists.
Qed.

(** A run that is not refused: the dispatcher's own events, the cloud
    part, the generator. *)
Lemma initProject_accepted (w : World) (projectName : option string) (programArgs : jsobject) :
  rejected projectName programArgs = false ->
  exists before name opts,
    Forall (fun e => dispatcherEvent e = true) before
    /\ has_name (Some name) = true
    /\ js_get opts "skipCloud" = js_get programArgs "skipCloud"
    /\ initProject projectName programArgs w false
       = (afterGeneration w, snd (fst (cloudPart name opts w false)),
          (before ++ snd (cloudPart name opts w false) ++ [GenerateNewApp name opts])%list).
Proof.
  unfold rejected. intros Hr.
  apply orb_false_elim in Hr as [Hr Hname]. apply orb_false_elim in Hr as [Ht Hq].
  destruct (truthy (js_get (forceQuickstart programArgs) "quickstart")) eqn:Hf.
  - cbn [andb] in Hname. apply negb_false_iff in Hname.
    destruct projectName as [name|]; [|discriminate].
    exists (firstInstallCheck (Some name) w), name, (forceQuickstart programArgs).
    split; [apply firstInstallCheck_dispatcher|]. split; [done|].
    split; [by apply js_get_lookup, forceQuickstart_other|].
    rewrite initProject_quickstart by done. by rewrite generateApp_named.
  - destruct (initProject_prompted w projectName programArgs) as (name & _ & Hn & _ & Heq).
    { done. }
    cbn zeta in Heq.
    eexists (firstInstallCheck projectName w
             ++ events (promptUser projectName (forceQuickstart programArgs)
                          (hasDatabaseOptions programArgs)) w
             ++ [CheckInstallPath (path_resolve w name)])%list, name,
      (generateStrapiAppOptions (forceQuickstart programArgs)
         (answersOf w projectName programArgs)).
    split; [|split; [done|split]].
    + apply Forall_app. split; [apply firstInstallCheck_dispatcher|].
      apply Forall_app. split; [apply promptUser_dispatcher|]. by repeat constructor.
    + etrans; [apply js_get_lookup, generateStrapiAppOptions_other; done|].
      by apply js_get_lookup, forceQuickstart_other.
    + rewrite Heq, generateApp_named by done. cbn [fst snd].
      rewrite <- !app_assoc. reflexivity.
Qed.

(** X6.  [checkRequirements] (line 162) belongs to the cloud branch: it
    is called exactly in the runs that are not refused and do not skip
    the cloud, once, and the provisioner starts right after it.  With
    [--skip-cloud], or in a refused run, the requirements are not checked
    at all. *)
Theorem requirements_checked_with_cloud (w : World) (projectName : option string)
    (programArgs : jsobject) :
  if rejected projectName programArgs || truthy (js_get programArgs "skipCloud")
  then ~ In CheckRequirements (events (initProject projectName programArgs) w)
  else exists before rest,
         events (initProject projectName programArgs) w
         = (before
            ++ CheckRequirements
               :: CreateLogger (includes_string (process_argv w) "--debug") :: rest)%list
         /\ Forall (fun e => dispatcherEvent e = true) before
         /\ ~ In CheckRequirements rest.
Proof.
  unfold events.
  destruct (rejected projectName programArgs) eqn:Hr.
  { destruct (initProject_rejected w _ _ Hr) as (msg & ->). cbn [orb snd].
    intros Hin. apply in_app_iff in Hin as [Hin|[Hin|[]]]; [|discriminate].
    by destruct (firstInstallCheck_quiet _ _ _ Hin). }
  destruct (initProject_accepted w _ _ Hr) as (before & name & opts & Hb & Hn & Hs & ->).
  cbn [orb snd]. rewrite <- Hs.
  assert (~ In CheckRequirements before) as Hnb.
  { intros Hin. rewrite Forall_forall in Hb. by apply list_elem_of_In, Hb in Hin. }
  destruct (truthy (js_get opts "skipCloud")) eqn:Hskip.
  - rewrite cloudPart_skipped by done. cbn [snd app].
    intros Hin. apply in_app_iff in Hin as [Hin|[Hin|[]]]; [done|discriminate].
  - rewrite cloudPart_run by done.
    destruct (handleCloudProject_first w name false) as (rest & Hrest).
    pose proof (handleCloudProject_cloud name w false) as Hcloud.
    rewrite Hrest in Hcloud |- *. cbn [app].
    exists before, (rest ++ [GenerateNewApp name opts])%list.
    split; [done|]. split; [done|].
    intros Hin. apply in_app_iff in Hin as [Hin|[Hin|[]]]; [|discriminate].
    apply Forall_cons in Hcloud as [_ Hcloud]. rewrite Forall_forall in Hcloud.
    by apply list_elem_of_In, Hcloud in Hin.
Qed.

(** * Further properties of the cloud provisioner *)


(** X8.  The handler of the second [try] (lines 118-138) as a table: the
    error is logged for debugging, then one message is shown.  It is the
    message of the server (or its fallback) exactly when the error
    carries a response whose status is 403; an error without a response,
    on which [assertCloudError] throws, and any other status get the
    default message.  The message goes to the spinner while it spins and
    to the logger otherwise, as a warning for a 403 and as an error for
    the rest; the handler returns and leaves the spinner stopped. *)
Theorem cloudFailure_table (e : jsError) (w : World) (spinning : bool) :
  cloudFailure e w spinning
  = (Returned tt, false,
     [ LoggerDebug [DError e];
       match response e with
       | Some r =>
           if strict_eq_number (status r) 403
           then (if spinning then SpinnerFail (forbiddenMessage r)
                 else LoggerWarn (forbiddenMessage r))
           else (if spinning then SpinnerFail defaultErrorMessage
                 else LoggerError defaultErrorMessage)
       | None =>
           if spinning then SpinnerFail defaultErrorMessage
           else LoggerError defaultErrorMessage
       end ]).
Proof.
  unfold cloudFailure, assertCloudError, failOr, or_TypeError, spinner_fail, try_catch, bind,
    ret, throw, emit, get_spinning, set_spinning.
  destruct (response e) as [r|]; [destruct (strict_eq_number (status r) 403)|];
    destruct spinning; reflexivity.
Qed.

(** X9.  A login that resolves to a falsy value (line 95) ends the
    provisioning without a word: the login action is the last event of
    [handleCloudProject], so no message is shown, no token is fetched and
    no project is created. *)
Theorem declined_login_ends_provisioning (w : World) (projectName : string) (spinning : bool)
    (loginSuccess : jsval) :
  In LoginAction (snd (handleCloudProject projectName w spinning)) ->
  cloud_login w = Resolves loginSuccess ->
  truthy loginSuccess = false ->
  exists before, snd (handleCloudProject projectName w spinning) = (before ++ [LoginAction])%list.
Proof.
  intros Hin Hlogin Hfalsy. revert Hin. unfold_cloud.
  repeat (cbn; case_scrutinee); cbn; intros Hin; find_event Hin; simplify_eq; merge_equations.
  all: try match goal with
           | H : negb (truthy ?x) = false, H' : truthy ?x = false |- _ =>
               rewrite H' in H; discriminate H
           end.
  all: lazymatch goal with
       | |- exists before, ?l = _ => exists (removelast l); reflexivity
       end.
Qed.

Lemma declined_login_ends_provisioning_witness :
  exists before,
    snd (handleCloudProject "myapp" (answeringLogin (JBool false) sampleWorld) false)
    = (before ++ [LoginAction])%list.
Proof.
  apply (declined_login_ends_provisioning (answeringLogin (JBool false) sampleWorld) "myapp"
           false (JBool false)).
  - apply (nth_error_In _ 7). vm_compute. reflexivity.
  - reflexivity.
  - reflexivity.
Defined.

(** X10.  When the user answers Skip (line 86), nothing of the
    provisioning happens: no spinner, no token service, no login, no
    project, nothing saved; [handleCloudProject] returns and leaves the
    spinner flag alone. *)
Theorem skip_choice_provisions_nothing (w : World) (projectName : string) (spinning : bool) :
  picked w "userChoice" = 1%nat ->
  exists t,
    handleCloudProject projectName w spinning = (Returned tt, spinning, t)
    /\ Forall (fun e => provisioningEvent e = false) t.
Proof.
  intros Hpick. unfold_cloud.
  repeat (cbn; case_scrutinee); cbn; try congruence;
    (eexists; split; [reflexivity|]; repeat constructor).
Qed.

Lemma skip_choice_provisions_nothing_witness :
  exists t,
    handleCloudProject "myapp" (choosing "userChoice" 1 sampleWorld) false
    = (Returned tt, false, t)
    /\ Forall (fun e => provisioningEvent e = false) t.
Proof.
  apply (skip_choice_provisions_nothing (choosing "userChoice" 1 sampleWorld) "myapp" false).
  reflexivity.
Defined.

Lemma projectPayload_name (w : World) (defaultProjectValues : jsval) (projectName : string) :
  js_get (projectPayload w defaultProjectValues projectName) "name" = JString projectName.
Proof. unfold projectPayload. apply js_get_set_eq. Qed.

(** X11.  What is saved is what was created: every call of [local.save]
    passes the project that [createProject] resolved with, for a payload
    named after the directory, and the path is the resolved directory. *)
Theorem saved_project_is_the_created_one (w : World) (projectName : string) (spinning : bool)
    (project : jsval) (directoryPath : string) :
  In (LocalSave project directoryPath) (snd (handleCloudProject projectName w spinning)) ->
  directoryPath = path_resolve w projectName
  /\ exists payload,
       In (CreateProject payload) (snd (handleCloudProject projectName w spinning))
       /\ cloud_createProject w payload = Resolves project
       /\ js_get payload "name" = JString projectName.
Proof.
  intros Hin. revert Hin. unfold_cloud.
  repeat (cbn; case_scrutinee); cbn; intros Hin; find_event Hin; simplify_eq.
  all: split; [reflexivity|].
  all: eexists; split; [|split; [eassumption|apply projectPayload_name]].
  all: repeat first [left; reflexivity | right].
Qed.

Lemma saved_project_is_the_created_one_witness :
  "/home/dev/myapp" = path_resolve sampleWorld "myapp"
  /\ exists payload,
       In (CreateProject payload) (snd (handleCloudProject "myapp" sampleWorld false))
       /\ cloud_createProject sampleWorld payload
          = Resolves (JObject {[ "name" := JString "remote" ]})
       /\ js_get payload "name" = JString "myapp".
Proof.
  apply (saved_project_is_the_created_one sampleWorld "myapp" false
           (JObject {[ "name" := JString "remote" ]}) "/home/dev/myapp").
  apply (nth_error_In _ 19). vm_compute. reflexivity.
Defined.

(** X13.  A configuration that resolves but has no string at
    [projectCreation.introText] is handled like a failed fetch: the
    TypeError raised at line 72 is caught at line 73, the default error
    is logged and [handleCloudProject] returns before the login
    question. *)
Theorem config_without_intro_skips_provisioning (w : World) (projectName : string)
    (spinning : bool) (config : jsval) :
  cloud_config w None = Resolves config ->
  introTextOf config = None ->
  handleCloudProject projectName w spinning
  = (Returned tt, spinning,
     [ CreateLogger (includes_string (process_argv w) "--debug"); CloudApiFactory None;
       CloudConfig None; LoggerDebug [DError TypeError]; LoggerError defaultErrorMessage ]).
Proof.
  intros Hc Hintro. unfold introTextOf in Hintro. unfold_cloud. rewrite Hc.
  destruct (js_prop config "projectCreation") as [projectCreation|]; [|reflexivity].
  destruct (js_prop projectCreation "introText") as [[| | | |text|]|]; try reflexivity.
  discriminate Hintro.
Qed.

Lemma config_without_intro_skips_provisioning_witness :
  handleCloudProject "myapp" (answeringConfig configWithoutIntro sampleWorld) false
  = (Returned tt, false,
     [ CreateLogger
         (includes_string (process_argv (answeringConfig configWithoutIntro sampleWorld))
            "--debug");
       CloudApiFactory None; CloudConfig None; LoggerDebug [DError TypeError];
       LoggerError defaultErrorMessage ]).
Proof.
  apply (config_without_intro_skips_provisioning
           (answeringConfig configWithoutIntro sampleWorld) "myapp" false configWithoutIntro).
  - reflexivity.
  - vm_compute. reflexivity.
Defined.

Lemma occurrences_app (kind : event -> bool) (t t' : list event) :
  occurrences kind (t ++ t') = (occurrences kind t + occurrences kind t')%nat.
Proof. unfold occurrences. by rewrite List.filter_app, length_app. Qed.

Lemma occurrences_none (kind : event -> bool) (t : list event) :
  Forall (fun e => kind e = false) t -> occurrences kind t = 0%nat.
Proof.
  unfold occurrences. induction 1 as [|e t He _ IH]; [done|]. cbn. by rewrite He.
Qed.

(** One run of the provisioner creates at most one project and saves at
    most once. *)
Lemma handleCloudProject_once (w : World) (projectName : string) (spinning : bool) :
  (occurrences isCreateProject (snd (handleCloudProject projectName w spinning)) <= 1)%nat
  /\ (occurrences isLocalSave (snd (handleCloudProject projectName w spinning)) <= 1)%nat.
Proof.
  unfold_cloud. unfold occurrences.
  repeat (cbn; case_scrutinee); cbn; split; lia.
Qed.

(** X12.  A run creates at most one cloud project and saves at most one
    descriptor, whatever the cloud service answers. *)
Theorem at_most_one_project_per_run (w : World) (projectName : option string)
    (programArgs : jsobject) :
  (occurrences isCreateProject (events (initProject projectName programArgs) w) <= 1)%nat
  /\ (occurrences isLocalSave (events (initProject projectName programArgs) w) <= 1)%nat.
Proof.
  assert (forall kind : event -> bool,
             (forall e, dispatcherEvent e = true -> kind e = false) ->
             (forall msg, kind (ConsoleError msg) = false) ->
             (forall n o, kind (GenerateNewApp n o) = false) ->
             kind CheckRequirements = false ->
             (forall name, (occurrences kind (snd (handleCloudProject name w false)) <= 1)%nat) ->
             (occurrences kind (events (initProject projectName programArgs) w) <= 1)%nat)
    as Hkind.
  { intros kind Hd Hc Hg Hr Hh. unfold events.
    destruct (rejected projectName programArgs) eqn:Hrej.
    - destruct (initProject_rejected w _ _ Hrej) as (msg & ->). cbn [snd].
      rewrite occurrences_app, occurrences_none.
      + unfold occurrences. cbn. rewrite Hc. cbn. lia.
      + eapply Forall_impl; [apply firstInstallCheck_dispatcher|]. apply Hd.
    - destruct (initProject_accepted w _ _ Hrej) as (before & name & opts & Hb & _ & _ & ->).
      cbn [snd]. rewrite !occurrences_app, (occurrences_none kind before).
      + replace (occurrences kind [GenerateNewApp name opts]) with 0%nat
          by (unfold occurrences; cbn; by rewrite Hg).
        destruct (truthy (js_get opts "skipCloud")) eqn:Hs.
        * rewrite cloudPart_skipped by done. cbn. lia.
        * rewrite cloudPart_run by done. specialize (Hh name).
          unfold occurrences in *. cbn. rewrite Hr. lia.
      + eapply Forall_impl; [exact Hb|]. apply Hd. }
  split; apply Hkind; try done; try (by intros [] ?); intros name;
    apply handleCloudProject_once.
Qed.

(** * Further properties of the payload and of the merged options *)

(** X14.  In the payload of [createProject] (lines 107-113) the
    directory always names the project, even when the defaults of the
    server carry a name; every other key comes from the defaults of the
    server when they have it, and from the three built-in values
    otherwise. *)
Theorem payload_precedence (w : World) (defaultProjectValues : jsval) (projectName : string) :
  js_get (projectPayload w defaultProjectValues projectName) "name" = JString projectName
  /\ forall k,
       k <> "name" ->
       projectPayload w defaultProjectValues projectName !! k
       = match js_own defaultProjectValues !! k with
         | Some v => Some v
         | None =>
             ({[ "nodeVersion" := JString (nodeVersion w); "region" := JString "NYC";
                 "plan" := JString "trial" ]} : jsobject) !! k
         end.
Proof.
  split; [apply js_get_set_eq|].
  intros k Hk. unfold projectPayload, js_set, js_spread2.
  rewrite lookup_insert_ne by done.
  destruct (js_own defaultProjectValues !! k) as [v|] eqn:Hd.
  - by apply lookup_union_Some_l.
  - by rewrite lookup_union_r.
Qed.

(** X15.  The node version of the payload (line 108) is the second and
    third character of [process.versions.node], not the first two; it is
    never empty and never longer than two characters, and it is ["20"]
    when the version is missing or has fewer than two characters. *)
Theorem nodeVersion_shape (w : World) :
  nodeVersion w <> ""
  /\ (String.length (nodeVersion w) <= 2)%nat
  /\ (forall c rest,
         process_versions_node w = Some (String c rest) ->
         rest <> "" ->
         nodeVersion w = String.substring 0 2 rest)
  /\ ((process_versions_node w = None
       \/ exists v, process_versions_node w = Some v /\ (String.length v <= 1)%nat) ->
      nodeVersion w = "20").
Proof.
  assert (forall s, String.substring 0 0 s = "") as Hzero by (by intros []).
  unfold nodeVersion.
  destruct (process_versions_node w) as [[|c [|c1 [|c2 rest]]]|]; cbn; rewrite ?Hzero; cbn.
  - split; [done|]. split; [lia|]. split; [|done]. by intros ? ? [= <- <-].
  - split; [done|]. split; [lia|]. split; [|done]. by intros ? ? [= <- <-].
  - split; [done|]. split; [lia|]. split; [by intros ? ? [= <- <-]|].
    intros [?|(v & [= <-] & Hlen)]; [done|]. cbn in Hlen. lia.
  - split; [done|]. split; [lia|]. split.
    + intros ? ? [= <- <-] _. cbn. by rewrite Hzero.
    + intros [?|(v & [= <-] & Hlen)]; [done|]. cbn in Hlen. lia.
  - split; [done|]. split; [lia|]. split; [|done]. by intros ? ? [=].
Qed.

(** X16.  In an interactive run the installation type the generator
    receives is the answer of the user: [quickstart] is truthy exactly
    when the question was asked and answered Quickstart. *)
Theorem interactive_quickstart_is_the_answer (w : World) (projectName : option string)
    (programArgs : jsobject) (name : string) (opts : jsobject) :
  interactive programArgs ->
  In (GenerateNewApp name opts) (events (initProject projectName programArgs) w) ->
  exists prompt,
    outcome (promptUser projectName (forceQuickstart programArgs)
               (hasDatabaseOptions programArgs)) w = Returned prompt
    /\ truthy (js_get opts "quickstart")
       = match quick prompt with
         | Some answer => answer
         | None => false
         end.
Proof.
  intros Hi Hin.
  destruct (initProject_prompted w projectName programArgs Hi) as (_ & _ & _ & Hprompt & _).
  destruct Hi as (_ & _ & Hf).
  apply initProject_generator in Hin as (_ & _ & [(Hf' & _)|(_ & _ & ->)]); [congruence|].
  exists (answersOf w projectName programArgs). split; [done|].
  rewrite generateStrapiAppOptions_quickstart. unfold js_or.
  by destruct (quick (answersOf w projectName programArgs)) as [[|]|].
Qed.

Lemma interactive_quickstart_is_the_answer_witness :
  exists prompt,
    outcome (promptUser (Some "myapp") (forceQuickstart skipCloudOnly)
               (hasDatabaseOptions skipCloudOnly)) (choosing "quick" 1 sampleWorld)
    = Returned prompt
    /\ truthy (js_get (generateStrapiAppOptions (forceQuickstart skipCloudOnly)
                         (answersOf (choosing "quick" 1 sampleWorld) (Some "myapp")
                            skipCloudOnly)) "quickstart")
       = match quick prompt with
         | Some answer => answer
         | None => false
         end.
Proof.
  apply (interactive_quickstart_is_the_answer (choosing "quick" 1 sampleWorld) (Some "myapp")
           skipCloudOnly "myapp").
  - repeat split; vm_compute; reflexivity.
  - apply (nth_error_In _ 3). vm_compute. reflexivity.
Defined.

(** * Properties of the colour markup *)

(** * The colour markup *)

Lemma app_cons (c : ascii) (s t : string) : String c s +:+ t = String c (s +:+ t).
Proof. reflexivity. Qed.

Lemma app_empty (t : string) : "" +:+ t = t.
Proof. reflexivity. Qed.

Lemma app_empty_r (s : string) : s +:+ "" = s.
Proof. induction s as [|x s IH]; [done|]. by rewrite app_cons, IH. Qed.

Lemma app_assoc_string (a b c : string) : (a +:+ b) +:+ c = a +:+ (b +:+ c).
Proof. induction a as [|x a IH]; [done|]. by rewrite !app_cons, IH. Qed.

Lemma length_app_string (a b : string) :
  String.length (a +:+ b) = (String.length a + String.length b)%nat.
Proof. induction a as [|x a IH]; [done|]. rewrite app_cons. cbn. by rewrite IH. Qed.

Lemma braceFree_app (a b : string) :
  Markup.braceFree (a +:+ b) = Markup.braceFree a && Markup.braceFree b.
Proof.
  induction a as [|x a IH]; [done|]. rewrite app_cons. cbn. rewrite IH. by rewrite andb_assoc.
Qed.

Lemma matchAt_no_brace (open close : string) (c : ascii) (s : string) :
  Ascii.eqb c "{" = false ->
  Markup.matchAt (String "{" open) close (String c s) = None.
Proof.
  intros Hc. unfold Markup.matchAt. cbn [Markup.startsWith].
  by rewrite Ascii.eqb_sym, Hc.
Qed.

Lemma replaceAll_skip (open close : string) (f : string -> string) (a b : string) :
  Markup.replaceAll open close f (String.length a) (a +:+ b)
  = Markup.replaceAll open close f 0 b.
Proof. induction a as [|x a IH]; [by destruct b|]. rewrite app_cons. cbn. apply IH. Qed.

(** The text before the first brace is copied. *)
Lemma replaceAll_plain_prefix (open close : string) (f : string -> string) (pre s : string) :
  Markup.braceFree pre = true ->
  Markup.replaceAll (String "{" open) close f 0 (pre +:+ s)
  = pre +:+ Markup.replaceAll (String "{" open) close f 0 s.
Proof.
  induction pre as [|c pre IH]; [done|]. cbn [Markup.braceFree].
  intros [Hc Hpre]%andb_prop. apply negb_true_iff in Hc.
  rewrite !app_cons. cbn [Markup.replaceAll]. rewrite matchAt_no_brace by done.
  by rewrite IH.
Qed.

Lemma replaceAll_plain (open close : string) (f : string -> string) (s : string) :
  Markup.braceFree s = true ->
  Markup.replaceAll (String "{" open) close f 0 s = s.
Proof.
  intros Hs. rewrite <- (app_empty_r s) at 1.
  rewrite replaceAll_plain_prefix by done. cbn [Markup.replaceAll]. apply app_empty_r.
Qed.

Lemma applyStyle_plain (chalk : string -> string -> string) (s color : string) :
  Markup.braceFree s = true -> Markup.applyStyle chalk s color = s.
Proof.
  intros Hs. unfold Markup.applyStyle, Markup.openTag. rewrite app_cons, app_empty.
  by apply replaceAll_plain.
Qed.

(** X17.  A template without an opening brace is returned as it is,
    whatever the chalk functions do: plain text is never styled, cut or
    trimmed. *)
Theorem parseToChalk_plain_text (chalk : string -> string -> string) (template : string) :
  Markup.braceFree template = true ->
  Markup.parseToChalk chalk template = template.
Proof.
  intros Hs. unfold Markup.parseToChalk, Markup.supportedStyles. cbn [fold_left].
  by rewrite !(applyStyle_plain chalk template).
Qed.

Lemma parseToChalk_plain_text_witness :
  Markup.parseToChalk bracketChalk "Welcome to Strapi Cloud" = "Welcome to Strapi Cloud".
Proof.
  apply (parseToChalk_plain_text bracketChalk "Welcome to Strapi Cloud").
  vm_compute. reflexivity.
Defined.

Lemma startsWith_app (p x : string) : Markup.startsWith p (p +:+ x) = true.
Proof.
  induction p as [|c p IH]; [done|]. rewrite app_cons. cbn [Markup.startsWith].
  by rewrite Ascii.eqb_refl, IH.
Qed.

Lemma dropStart_app (p x : string) : Markup.dropStart (String.length p) (p +:+ x) = x.
Proof. induction p as [|c p IH]; [by destruct x|]. rewrite app_cons. cbn. apply IH. Qed.

(** Whether a line terminator begins at a character does not depend on
    a brace further on. *)
Lemma lineTerminatorAt_before_brace (c : ascii) (s t : string) :
  Markup.lineTerminatorAt (String c (s +:+ String "{" t))
  = Markup.lineTerminatorAt (String c s).
Proof.
  destruct s as [|c1 [|c2 s]]; rewrite ?app_cons, ?app_empty; cbn [Markup.lineTerminatorAt].
  - do 2 f_equal. by destruct t.
  - do 2 f_equal. generalize (Ascii.eqb c1 "128"). by intros [].
  - reflexivity.
Qed.

Lemma lazyUpTo_found (close inner post : string) :
  Markup.braceFree inner = true ->
  Markup.oneLine inner = true ->
  Markup.lazyUpTo (String "{" close) (inner +:+ String "{" close +:+ post) = Some inner.
Proof.
  induction inner as [|c inner IH]; intros Hb Hl.
  - rewrite app_empty. rewrite app_cons. cbn [Markup.lazyUpTo].
    rewrite <- app_cons. by rewrite startsWith_app.
  - cbn [Markup.braceFree Markup.oneLine] in Hb, Hl.
    apply andb_prop in Hb as [Hc%negb_true_iff Hb]. apply andb_prop in Hl as [Hnl%negb_true_iff Hl].
    rewrite app_cons. cbn [Markup.lazyUpTo Markup.startsWith].
    rewrite Ascii.eqb_sym, Hc. cbn [andb].
    rewrite (app_cons "{" close post), lineTerminatorAt_before_brace, Hnl.
    rewrite <- (app_cons "{" close post). by rewrite IH.
Qed.

(** Without a closing brace further on, or with a line feed before it,
    the closing tag is not found. *)
Lemma lazyUpTo_unclosed (close rest : string) :
  Markup.braceFree rest = true ->
  Markup.lazyUpTo (String "{" close) rest = None.
Proof.
  induction rest as [|c rest IH]; [done|]. cbn [Markup.braceFree].
  intros [Hc%negb_true_iff Hb]%andb_prop.
  cbn [Markup.lazyUpTo Markup.startsWith]. rewrite Ascii.eqb_sym, Hc. cbn [andb].
  rewrite IH by done. by destruct (Markup.lineTerminatorAt _).
Qed.

Lemma lazyUpTo_broken (close a rest : string) :
  Markup.braceFree a = true ->
  Markup.lazyUpTo (String "{" close) (a +:+ String "010" rest) = None.
Proof.
  induction a as [|c a IH].
  - intros _. rewrite app_empty. reflexivity.
  - cbn [Markup.braceFree]. intros [Hc%negb_true_iff Hb]%andb_prop.
    rewrite app_cons. cbn [Markup.lazyUpTo Markup.startsWith].
    rewrite Ascii.eqb_sym, Hc. cbn [andb]. rewrite IH by done.
    by destruct (Markup.lineTerminatorAt _).
Qed.

Lemma replaceAll_unmatched (open close : string) (f : string -> string) (s : string) :
  Markup.unmatched open close s = true -> Markup.replaceAll open close f 0 s = s.
Proof.
  induction s as [|c s IH]; [done|]. cbn [Markup.unmatched Markup.replaceAll].
  destruct (Markup.matchAt open close (String c s)); [done|]. intros Hs. by rewrite IH.
Qed.

Lemma unmatched_cons (open close : string) (c : ascii) (s : string) :
  Markup.matchAt open close (String c s) = None ->
  Markup.unmatched open close s = true ->
  Markup.unmatched open close (String c s) = true.
Proof. intros Hm Hs. cbn [Markup.unmatched]. by rewrite Hm. Qed.

Lemma unmatched_plain_prefix (open close pre s : string) :
  Markup.braceFree pre = true ->
  Markup.unmatched (String "{" open) close s = true ->
  Markup.unmatched (String "{" open) close (pre +:+ s) = true.
Proof.
  induction pre as [|c pre IH]; [done|]. cbn [Markup.braceFree].
  intros [Hc%negb_true_iff Hb]%andb_prop Hs. rewrite app_cons.
  apply unmatched_cons; [by apply matchAt_no_brace|by apply IH].
Qed.

Lemma unmatched_plain (open close s : string) :
  Markup.braceFree s = true -> Markup.unmatched (String "{" open) close s = true.
Proof.
  intros Hs. rewrite <- (app_empty_r s). by apply unmatched_plain_prefix.
Qed.

(** The leftmost tagged piece after plain text is replaced, and the
    search goes on behind its closing tag. *)
Lemma replaceAll_tagged (open close : string) (f : string -> string) (pre inner post : string) :
  Markup.braceFree pre = true ->
  Markup.braceFree inner = true ->
  Markup.oneLine inner = true ->
  Markup.replaceAll (String "{" open) (String "{" close) f 0
    (pre +:+ String "{" open +:+ inner +:+ String "{" close +:+ post)
  = pre +:+ f inner +:+ Markup.replaceAll (String "{" open) (String "{" close) f 0 post.
Proof.
  intros Hpre Hinner Hline.
  rewrite replaceAll_plain_prefix by done. f_equal.
  rewrite (app_cons "{" open). cbn [Markup.replaceAll]. unfold Markup.matchAt.
  rewrite <- (app_cons "{" open), startsWith_app, dropStart_app, lazyUpTo_found by done.
  f_equal. rewrite <- !app_assoc_string.
  replace (String.length (String "{" open) + String.length inner
           + String.length (String "{" close) - 1)%nat
    with (String.length ((open +:+ inner) +:+ String "{" close)).
  - by rewrite replaceAll_skip.
  - rewrite !length_app_string. cbn [String.length]. lia.
Qed.

Lemma openTag_cons (color : string) : Markup.openTag color = String "{" (color +:+ "}").
Proof. unfold Markup.openTag. by rewrite app_cons, app_empty. Qed.

Lemma closeTag_cons (color : string) :
  Markup.closeTag color = String "{" (String "/" (color +:+ "}")).
Proof. unfold Markup.closeTag. by rewrite !app_cons, app_empty. Qed.

Lemma applyStyle_unmatched (chalk : string -> string -> string) (s color : string) :
  Markup.unmatched (Markup.openTag color) (Markup.closeTag color) s = true ->
  Markup.applyStyle chalk s color = s.
Proof. intros Hs. unfold Markup.applyStyle. by apply replaceAll_unmatched. Qed.

Lemma matchAt_open (open close x : string) :
  Markup.matchAt (String "{" open) close (String "{" (open +:+ x)) = Markup.lazyUpTo close x.
Proof.
  unfold Markup.matchAt. cbn [Markup.startsWith String.length Markup.dropStart].
  by rewrite Ascii.eqb_refl, startsWith_app, dropStart_app.
Qed.

(** An opening tag whose closing tag is cut off by a line feed starts no
    match, and neither does anything inside it. *)
Lemma unmatched_open_broken (color a rest : string) :
  Markup.braceFree color = true ->
  Markup.braceFree a = true ->
  Markup.unmatched (Markup.openTag color) (Markup.closeTag color) (String "010" rest) = true ->
  Markup.unmatched (Markup.openTag color) (Markup.closeTag color)
    (Markup.openTag color +:+ a +:+ String "010" rest) = true.
Proof.
  intros Hcolor Ha Hrest. rewrite closeTag_cons, openTag_cons in *.
  rewrite app_cons. apply unmatched_cons.
  - rewrite matchAt_open. by apply lazyUpTo_broken.
  - rewrite <- app_assoc_string. apply unmatched_plain_prefix; [|done].
    rewrite !braceFree_app, Hcolor, Ha. reflexivity.
Qed.

Lemma unmatched_open_unclosed (color rest : string) :
  Markup.braceFree color = true ->
  Markup.braceFree rest = true ->
  Markup.unmatched (Markup.openTag color) (Markup.closeTag color)
    (Markup.openTag color +:+ rest) = true.
Proof.
  intros Hcolor Hrest. rewrite closeTag_cons, openTag_cons.
  rewrite app_cons. apply unmatched_cons.
  - rewrite matchAt_open. by apply lazyUpTo_unclosed.
  - apply unmatched_plain. rewrite !braceFree_app, Hcolor, Hrest. reflexivity.
Qed.

(** Walks along a string made of plain pieces and of tags of another
    style. *)
Ltac walk :=
  repeat first
    [ apply unmatched_plain; assumption
    | apply unmatched_plain_prefix; [assumption|]
    | apply unmatched_open_broken; [reflexivity|assumption|]
    | apply unmatched_open_unclosed; [reflexivity|assumption]
    | apply unmatched_cons; [reflexivity|] ].

(** One turn of the loop, taken at the innermost pending style. *)
Ltac pass chalk :=
  match goal with
  | |- context [Markup.applyStyle chalk ?s ?c] =>
      lazymatch s with
      | context [Markup.applyStyle] => fail
      | _ => rewrite (applyStyle_unmatched chalk s c) by (rewrite ?openTag_cons, ?closeTag_cons; walk)
      end
  end.

Lemma applyStyle_tagged (chalk : string -> string -> string) (color pre inner post : string) :
  Markup.braceFree pre = true ->
  Markup.braceFree inner = true ->
  Markup.oneLine inner = true ->
  Markup.applyStyle chalk
    (pre +:+ Markup.openTag color +:+ inner +:+ Markup.closeTag color +:+ post) color
  = pre +:+ chalk color (Markup.trim inner) +:+ Markup.applyStyle chalk post color.
Proof.
  intros Hpre Hinner Hline. unfold Markup.applyStyle.
  rewrite openTag_cons, closeTag_cons.
  by rewrite (replaceAll_tagged _ _ (fun p1 => chalk color (Markup.trim p1))).
Qed.

(** X18.  A tag that is not closed on its line stays in the text as it
    was written: an opening tag of a supported style with no closing tag
    behind it, or with a line feed before the closing tag, is not
    replaced, since [.] of the pattern of line 52 does not pass a line
    terminator.  The text around it is copied. *)
Theorem unterminated_tag_left_alone (chalk : string -> string -> string)
    (color pre inner rest post : string) :
  In color Markup.supportedStyles ->
  Markup.braceFree pre = true ->
  Markup.braceFree inner = true ->
  Markup.braceFree rest = true ->
  Markup.braceFree post = true ->
  Markup.parseToChalk chalk (pre +:+ Markup.openTag color +:+ inner)
  = pre +:+ Markup.openTag color +:+ inner
  /\ Markup.parseToChalk chalk
       (pre +:+ Markup.openTag color +:+ inner +:+ String "010" rest
        +:+ Markup.closeTag color +:+ post)
     = pre +:+ Markup.openTag color +:+ inner +:+ String "010" rest
       +:+ Markup.closeTag color +:+ post.
Proof.
  intros Hin Hpre Hinner Hrest Hpost.
  unfold Markup.parseToChalk, Markup.supportedStyles in *. cbn [fold_left].
  cbn [In] in Hin.
  destruct Hin as [<-|[<-|[<-|[<-|[<-|[<-|[<-|[]]]]]]]].
  all: split; repeat pass chalk; reflexivity.
Qed.

Lemma unterminated_tag_left_alone_witness :
  Markup.parseToChalk bracketChalk ("Hello " +:+ Markup.openTag "red" +:+ "wor")
  = "Hello " +:+ Markup.openTag "red" +:+ "wor"
  /\ Markup.parseToChalk bracketChalk
       ("Hello " +:+ Markup.openTag "red" +:+ "wor" +:+ String "010" "ld"
        +:+ Markup.closeTag "red" +:+ "!")
     = "Hello " +:+ Markup.openTag "red" +:+ "wor" +:+ String "010" "ld"
       +:+ Markup.closeTag "red" +:+ "!".
Proof.
  apply (unterminated_tag_left_alone bracketChalk "red" "Hello " "wor" "ld" "!").
  - apply (nth_error_In _ 4). reflexivity.
  - reflexivity.
  - reflexivity.
  - reflexivity.
  - reflexivity.
Defined.

Lemma replaceAll_cons_unmatched (open close : string) (f : string -> string)
    (c : ascii) (s : string) :
  Markup.matchAt open close (String c s) = None ->
  Markup.replaceAll open close f 0 (String c s)
  = String c (Markup.replaceAll open close f 0 s).
Proof. intros Hm. cbn [Markup.replaceAll]. by rewrite Hm. Qed.

Lemma applyStyle_plain_prefix (chalk : string -> string -> string) (color pre s : string) :
  Markup.braceFree pre = true ->
  Markup.applyStyle chalk (pre +:+ s) color = pre +:+ Markup.applyStyle chalk s color.
Proof.
  intros Hpre. unfold Markup.applyStyle. rewrite openTag_cons.
  by apply replaceAll_plain_prefix.
Qed.

Lemma supported_cases (color : string) :
  existsb (String.eqb color) Markup.supportedStyles = true ->
  In color Markup.supportedStyles.
Proof.
  intros (c & Hc & ->%String.eqb_eq)%existsb_exists. exact Hc.
Qed.

(** The tag of one style is copied by the turn of another style. *)
Lemma applyStyle_other_tag (chalk : string -> string -> string)
    (color color' inner rest : string) :
  In color Markup.supportedStyles ->
  In color' Markup.supportedStyles ->
  String.eqb color' color = false ->
  Markup.braceFree inner = true ->
  Markup.applyStyle chalk
    (Markup.openTag color' +:+ inner +:+ Markup.closeTag color' +:+ rest) color
  = Markup.openTag color' +:+ inner +:+ Markup.closeTag color'
    +:+ Markup.applyStyle chalk rest color.
Proof.
  intros Hc Hc' Hne Hinner. unfold Markup.supportedStyles in *. cbn [In] in Hc, Hc'.
  destruct Hc as [<-|[<-|[<-|[<-|[<-|[<-|[<-|[]]]]]]]];
    destruct Hc' as [<-|[<-|[<-|[<-|[<-|[<-|[<-|[]]]]]]]];
    try discriminate Hne; clear Hne.
  all: unfold Markup.applyStyle; rewrite !openTag_cons, !closeTag_cons.
  all: repeat first [ rewrite app_cons | rewrite app_empty ].
  all: repeat first
    [ rewrite replaceAll_cons_unmatched by reflexivity
    | rewrite replaceAll_plain_prefix by assumption ].
  all: reflexivity.
Qed.

Lemma applyStyle_render (chalk : string -> string -> string) (color : string)
    (ps : list Markup.piece) :
  In color Markup.supportedStyles ->
  forallb (Markup.wellFormed chalk) ps = true ->
  Markup.applyStyle chalk (Markup.render ps) color
  = Markup.render (map (Markup.resolve chalk color) ps).
Proof.
  intros Hcolor. induction ps as [|[text|color' inner] ps IH]; cbn [forallb map Markup.render].
  - intros _. reflexivity.
  - intros [Htext Hps]%andb_prop. cbn [Markup.wellFormed] in Htext.
    cbn [Markup.resolve Markup.markup]. by rewrite applyStyle_plain_prefix, IH.
  - intros [Hp Hps]%andb_prop. cbn [Markup.wellFormed] in Hp.
    apply andb_prop in Hp as [Hp Hstyled]. apply andb_prop in Hp as [Hp Hline].
    apply andb_prop in Hp as [Hsupported%supported_cases Hinner].
    cbn [Markup.resolve Markup.markup]. rewrite !app_assoc_string.
    destruct (String.eqb color' color) eqn:Heq.
    + apply String.eqb_eq in Heq as ->.
      pose proof (applyStyle_tagged chalk color "" inner (Markup.render ps)
                    eq_refl Hinner Hline) as Htag.
      rewrite !app_empty in Htag. rewrite Htag, IH by done. reflexivity.
    + rewrite applyStyle_other_tag by done. rewrite IH by done.
      cbn [Markup.render Markup.markup]. by rewrite !app_assoc_string.
Qed.

Lemma resolve_wellFormed (chalk : string -> string -> string) (color : string)
    (ps : list Markup.piece) :
  forallb (Markup.wellFormed chalk) ps = true ->
  forallb (Markup.wellFormed chalk) (map (Markup.resolve chalk color) ps) = true.
Proof.
  induction ps as [|[text|color' inner] ps IH]; cbn [forallb map]; [done| |].
  - intros [Htext Hps]%andb_prop. cbn [Markup.resolve]. by rewrite Htext, IH.
  - intros [Hp Hps]%andb_prop. rewrite IH by done. rewrite andb_true_r.
    cbn [Markup.resolve]. destruct (String.eqb color' color); [|done].
    cbn [Markup.wellFormed] in *. by apply andb_prop in Hp as [_ ->].
Qed.

Lemma fold_applyStyle_render (chalk : string -> string -> string) (colors : list string) :
  forall ps : list Markup.piece,
  Forall (fun color => In color Markup.supportedStyles) colors ->
  forallb (Markup.wellFormed chalk) ps = true ->
  fold_left (Markup.applyStyle chalk) colors (Markup.render ps)
  = Markup.render (fold_left (fun ps color => map (Markup.resolve chalk color) ps) colors ps).
Proof.
  induction colors as [|color colors IH]; intros ps Hcolors Hps; [done|].
  apply Forall_cons_1 in Hcolors as [Hcolor Hcolors]. cbn [fold_left].
  rewrite applyStyle_render by done. apply IH; [done|]. by apply resolve_wellFormed.
Qed.

Lemma fold_resolve_cons (chalk : string -> string -> string) (colors : list string) :
  forall (p : Markup.piece) (ps : list Markup.piece),
  fold_left (fun ps color => map (Markup.resolve chalk color) ps) colors (p :: ps)
  = fold_left (fun p color => Markup.resolve chalk color p) colors p
    :: fold_left (fun ps color => map (Markup.resolve chalk color) ps) colors ps.
Proof. induction colors as [|color colors IH]; intros p ps; [done|]. cbn [fold_left map]. apply IH. Qed.

Lemma render_resolved (chalk : string -> string -> string) (ps : list Markup.piece) :
  forallb (Markup.wellFormed chalk) ps = true ->
  Markup.render
    (fold_left (fun ps color => map (Markup.resolve chalk color) ps) Markup.supportedStyles ps)
  = Markup.styled chalk ps.
Proof.
  induction ps as [|p ps IH]; [done|]. cbn [forallb]. intros [Hp Hps]%andb_prop.
  rewrite fold_resolve_cons. cbn [Markup.render Markup.styled]. rewrite IH by done.
  f_equal. destruct p as [text|color inner]; [done|].
  cbn [Markup.wellFormed] in Hp.
  apply andb_prop in Hp as [Hp _]. apply andb_prop in Hp as [Hp _].
  apply andb_prop in Hp as [Hsupported%supported_cases _].
  unfold Markup.supportedStyles in *. cbn [In] in Hsupported.
  by destruct Hsupported as [<-|[<-|[<-|[<-|[<-|[<-|[<-|[]]]]]]]].
Qed.

(** X19.  On a flat template, plain text without an opening brace and
    tags of supported styles whose contents have no opening brace and no
    line terminator, [parseToChalk] replaces every tag, whatever its
    style and however often the style occurs, by the chalk function of
    its style applied to the trimmed contents, and copies the plain text;
    the chalk functions are any that add no opening brace. *)
Theorem parseToChalk_styles_every_tag (chalk : string -> string -> string)
    (ps : list Markup.piece) :
  forallb (Markup.wellFormed chalk) ps = true ->
  Markup.parseToChalk chalk (Markup.render ps) = Markup.styled chalk ps.
Proof.
  intros Hps. unfold Markup.parseToChalk.
  rewrite fold_applyStyle_render; [by apply render_resolved| |done].
  apply List.Forall_forall. by intros color Hcolor.
Qed.

Lemma parseToChalk_styles_every_tag_witness :
  Markup.parseToChalk bracketChalk (Markup.render welcomePieces)
  = Markup.styled bracketChalk welcomePieces.
Proof.
  apply (parseToChalk_styles_every_tag bracketChalk welcomePieces).
  vm_compute. reflexivity.
Defined.

(** X20.  When the configuration of the cloud service carries a flat
    introduction text, the first thing the provisioner logs is that text
    with every tag styled, and the login question follows it. *)
Theorem intro_text_is_logged_styled (w : World) (projectName : string) (spinning : bool)
    (config : jsval) (chalk : string -> string -> string) (ps : list Markup.piece) :
  cloud_config w None = Resolves config ->
  introTextOf config = Some (Markup.render ps) ->
  (forall template, parseToChalk w template = Markup.parseToChalk chalk template) ->
  forallb (Markup.wellFormed chalk) ps = true ->
  exists rest,
    snd (handleCloudProject projectName w spinning)
    = ([ CreateLogger (includes_string (process_argv w) "--debug"); CloudApiFactory None;
         CloudConfig None; LoggerLog (Markup.styled chalk ps);
         Prompt "userChoice" "Please log in or sign up." ] ++ rest)%list.
Proof.
  intros Hc Hintro Hparse Hps. unfold introTextOf in Hintro. unfold_cloud. rewrite Hc.
  destruct (js_prop config "projectCreation") as [projectCreation|]; [|discriminate Hintro].
  destruct (js_prop projectCreation "introText") as [[| | | |text|]|]; try discriminate Hintro.
  injection Hintro as ->. rewrite Hparse, parseToChalk_styles_every_tag by done.
  repeat (cbn; case_scrutinee); cbn; eexists; reflexivity.
Qed.

Lemma intro_text_is_logged_styled_witness :
  exists rest,
    snd (handleCloudProject "myapp"
           (withChalk bracketChalk
              (answeringConfig (configWithIntro (Markup.render welcomePieces)) sampleWorld))
           false)
    = ([ CreateLogger
           (includes_string
              (process_argv
                 (withChalk bracketChalk
                    (answeringConfig (configWithIntro (Markup.render welcomePieces))
                       sampleWorld)))
              "--debug");
         CloudApiFactory None; CloudConfig None;
         LoggerLog (Markup.styled bracketChalk welcomePieces);
         Prompt "userChoice" "Please log in or sign up." ] ++ rest)%list.
Proof.
  apply (intro_text_is_logged_styled
           (withChalk bracketChalk
              (answeringConfig (configWithIntro (Markup.render welcomePieces)) sampleWorld))
           "myapp" false (configWithIntro (Markup.render welcomePieces)) bracketChalk
           welcomePieces).
  - reflexivity.
  - vm_compute. reflexivity.
  - reflexivity.
  - vm_compute. reflexivity.
Defined.
